(** * Trivia API: a shallow embedding of [backend/flaskr/__init__.py]

    The seven view functions of [create_app] are embedded as actions of a
    small state-and-error monad over the two tables of the storage layer.
    [abort] and uncaught Python exceptions are outcomes of an action; Flask's
    dispatch turns them into responses through the registered error
    handlers. *)

From Stdlib Require Import Ascii String.
From stdpp Require Import gmap strings list pretty.

(** ** Python and SQL primitives used by the views *)

Module Py.

(** Index adjustment of a slice bound for a sequence of length [n] and
    step 1: a negative bound counts from the end, and the result is
    clamped to [0, n]. *)
Definition adjust_index (n i : Z) : Z :=
  if bool_decide (i < 0)%Z then Z.max 0 (i + n) else Z.min i n.

(** [l[start:stop]]. *)
Definition slice {A} (l : list A) (start stop : Z) : list A :=
  let n := Z.of_nat (length l) in
  let lo := adjust_index n start in
  let hi := adjust_index n stop in
  take (Z.to_nat (hi - lo)) (drop (Z.to_nat lo) l).

(** [str(i)] for an integer, also what [json.dumps] writes for an integer
    dictionary key. *)
Definition str_int (i : Z) : string := pretty i.

(** [str(x)] of a value that is a string or [None], as an f-string
    placeholder renders it. *)
Definition str_opt (x : option string) : string :=
  match x with
  | Some s => s
  | None => "None"
  end.

End Py.

Module Sql.

(** Lower case of an ASCII letter; every other character is itself. *)
Definition lower (c : ascii) : ascii :=
  let n := N_of_ascii c in
  if bool_decide (65 ≤ n)%N && bool_decide (n ≤ 90)%N
  then ascii_of_N (n + 32) else c.

Definition eq_ci (a b : ascii) : bool := bool_decide (lower a = lower b).

(** [s LIKE p] with PostgreSQL's default escape character, compared without
    regard to case: [%] matches any run of characters, [_] any one
    character, a backslash makes the next pattern character literal. A
    pattern that ends in a lone backslash matches nothing. *)
Fixpoint like (p s : string) : bool :=
  match p with
  | EmptyString =>
      match s with EmptyString => true | String _ _ => false end
  | String "%"%char p' =>
      (fix any (s : string) : bool :=
         like p' s ||
         match s with
         | EmptyString => false
         | String _ s' => any s'
         end) s
  | String "_"%char p' =>
      match s with
      | EmptyString => false
      | String _ s' => like p' s'
      end
  | String "\"%char p' =>
      match p' with
      | EmptyString => false
      | String c p'' =>
          match s with
          | EmptyString => false
          | String d s' => eq_ci c d && like p'' s'
          end
      end
  | String c p' =>
      match s with
      | EmptyString => false
      | String d s' => eq_ci c d && like p' s'
      end
  end.

(** [column ILIKE pattern]. *)
Definition ilike (column pattern : string) : bool := like pattern column.

End Sql.

(** ** The storage layer *)

Module Question.
(** Modelled from the spec: [models.py] is not among the sources. A
    question row has an integer identifier assigned by storage, a question
    text, an answer text, an integer difficulty and an integer category
    reference. *)
Record t := mk {
  id : Z;
  question : string;
  answer : string;
  difficulty : Z;
  category : Z
}.
End Question.

Module Category.
(** Modelled from the spec: [models.py] is not among the sources. A
    category row has an integer identifier and a label. *)
Record t := mk {
  id : Z;
  type : string
}.
End Category.

Module QuestionDict.
(** The dictionary [question.format()] returns. *)
Record t := mk {
  id : Z;
  question : string;
  answer : string;
  difficulty : Z;
  category : Z
}.
End QuestionDict.

(** Modelled from the spec: [Question.format] of [models.py], which flattens
    a row into the record {id, question, answer, difficulty, category}. *)
Definition format (q : Question.t) : QuestionDict.t :=
  QuestionDict.mk (Question.id q) (Question.question q) (Question.answer q)
    (Question.difficulty q) (Question.category q).

(** The persisted state: both tables in the order the gateway lists them,
    and the sequence the next question identifier is taken from. *)
Record db := mkdb {
  questions : list Question.t;
  categories : list Category.t;
  next_id : Z
}.

(** ** Outcomes of a view function *)

Inductive exn :=
| KeyError (key : string)
| TypeError
| AttributeError
| IndexError.

Inductive outcome (A : Type) :=
| Ret (a : A)
| Abort (code : Z)
| Raise (e : exn).
Arguments Ret {A} a.
Arguments Abort {A} code.
Arguments Raise {A} e.

Definition action (A : Type) : Type := db → outcome A * db.

Global Instance action_ret : MRet action := λ A a s, (Ret a, s).

Global Instance action_bind : MBind action := λ A B k m s,
  match m s with
  | (Ret a, s') => k a s'
  | (Abort c, s') => (Abort c, s')
  | (Raise e, s') => (Raise e, s')
  end.

Definition abort {A} (code : Z) : action A := λ s, (Abort code, s).
Definition raise {A} (e : exn) : action A := λ s, (Raise e, s).

(** [db.session.query(Question).all()] *)
Definition query_questions : action (list Question.t) :=
  λ s, (Ret (questions s), s).

(** [db.session.query(Category).all()] *)
Definition query_categories : action (list Category.t) :=
  λ s, (Ret (categories s), s).

(** [db.session.query(Question).filter(...).all()] *)
Definition query_questions_filter (P : Question.t → Prop)
    `{!∀ q, Decision (P q)} : action (list Question.t) :=
  λ s, (Ret (filter P (questions s)), s).

(** [db.session.query(Question).get(question_id)] *)
Definition query_question_get (question_id : Z) : action (option Question.t) :=
  λ s, (Ret (head (filter (λ q, Question.id q = question_id) (questions s))), s).

(** [db.session.query(Category).get(category_id)] *)
Definition query_category_get (category_id : Z) : action (option Category.t) :=
  λ s, (Ret (head (filter (λ c, Category.id c = category_id) (categories s))), s).

(** Modelled from the spec: [Question.insert] of [models.py]. Storage
    assigns the identifier, never one it assigned before, and the new row
    comes last. *)
Definition insert (question answer : string) (difficulty category : Z)
  : action unit :=
  λ s,
    (Ret tt,
     mkdb (questions s ++
             [Question.mk (next_id s) question answer difficulty category])
          (categories s)
          (next_id s + 1)%Z).

(** Modelled from the spec: [Question.delete] of [models.py], which removes
    the row of that identifier for good. *)
Definition delete (q : Question.t) : action unit :=
  λ s,
    (Ret tt,
     mkdb (filter (λ x, Question.id x ≠ Question.id q) (questions s))
          (categories s)
          (next_id s)).

(** ** Request payloads and responses *)

(** A key of a decoded JSON object: missing, present with [null], or present
    with a value. *)
Inductive field (A : Type) :=
| Absent
| Null
| Val (a : A).
Arguments Absent {A}.
Arguments Null {A}.
Arguments Val {A} a.

(** [data[key]]: a missing key raises, [null] reads as [None]. *)
Definition getitem {A} (key : string) (f : field A) : action (option A) :=
  match f with
  | Absent => raise (KeyError key)
  | Null => mret None
  | Val a => mret (Some a)
  end.

Record question_data := mk_question_data {
  data_question : field string;
  data_answer : field string;
  data_difficulty : field Z;
  data_category : field Z
}.

Record search_data := mk_search_data {
  data_searchTerm : field string
}.

(** [quiz_category] is itself an object, read only for its [id] key. *)
Record quiz_data := mk_quiz_data {
  data_previous_questions : field (list Z);
  data_quiz_category : field (field Z)
}.

(** The JSON bodies that [jsonify] is given, by shape. [DefaultPage] is the
    page the framework writes for an error code without a handler. *)
Inductive body :=
| CategoriesBody (categories : gmap string string)
| QuestionsBody (questions : list QuestionDict.t) (totalQuestions : nat)
    (categories : gmap string string) (currentCategory : string)
| MatchesBody (questions : list QuestionDict.t) (totalQuestions : nat)
    (currentCategory : option string)
| MessageBody (success : bool) (message : string)
| QuizBody (question : QuestionDict.t)
| DefaultPage (code : Z).

(** The value under the ["success"] key. *)
Definition success (b : body) : bool :=
  match b with
  | MessageBody ok _ => ok
  | DefaultPage _ => false
  | _ => true
  end.

Definition response : Type := body * Z.

(** [{category.id: category.type for category in categories}]: a later row
    replaces an earlier one of the same identifier. *)
Definition categories_dict (categories : list Category.t) : gmap Z string :=
  foldl (λ d c, <[Category.id c := Category.type c]> d) ∅ categories.

(** JSON object keys are strings: [jsonify] writes an integer key as its
    decimal text. *)
Definition jsonify_keys (d : gmap Z string) : gmap string string :=
  kmap Py.str_int d.

(** ** The error handlers *)

Definition bad_request (error : Z) : response :=
  (MessageBody false "Bad request", 400%Z).

Definition not_found (error : Z) : response :=
  (MessageBody false "Not found", 404%Z).

Definition unprocessable_entity (error : Z) : response :=
  (MessageBody false "Unprocessable entity", 422%Z).

Definition internal_server_error (error : Z) : response :=
  (MessageBody false "Internal server error", 500%Z).

(** The handlers registered through [@app.errorhandler]. *)
Definition errorhandler (code : Z) : option (Z → response) :=
  if decide (code = 400%Z) then Some bad_request
  else if decide (code = 404%Z) then Some not_found
  else if decide (code = 422%Z) then Some unprocessable_entity
  else if decide (code = 500%Z) then Some internal_server_error
  else None.

Definition handle_http_exception (code : Z) : response :=
  match errorhandler code with
  | Some handler => handler code
  | None => (DefaultPage code, code)
  end.

(** A returned body is sent with status 200, [abort(code)] goes to the
    handler of that code, and an uncaught exception is an internal server
    error. *)
Definition full_dispatch_request (view : action body) : db → response * db :=
  λ s,
    match view s with
    | (Ret b, s') => ((b, 200%Z), s')
    | (Abort code, s') => (handle_http_exception code, s')
    | (Raise _, s') => (handle_http_exception 500%Z, s')
    end.

(** ** The views *)

Definition QUESTIONS_PER_PAGE : Z := 10.

(** [GET /categories] *)
Definition get_categories : action body :=
  categories ← query_categories;
  let categories_dict := categories_dict categories in
  if decide (size categories_dict = 0) then abort 404%Z
  else mret (CategoriesBody (jsonify_keys categories_dict)).

(** [GET /questions]. [page_arg] is the [page] query argument read as an
    integer, [None] when it is missing or is not one; [request.args.get]
    then gives the default 1. *)
Definition get_questions (page_arg : option Z) : action body :=
  let page := default 1%Z page_arg in
  let start := ((page - 1) * QUESTIONS_PER_PAGE)%Z in
  let end_ := (start + QUESTIONS_PER_PAGE)%Z in
  questions ← query_questions;
  let formatted_questions := format <$> questions in
  categories ← query_categories;
  let categories_dict := categories_dict categories in
  if decide (length (Py.slice formatted_questions start end_) = 0)
  then abort 404%Z
  else mret (QuestionsBody (Py.slice formatted_questions start end_)
               (length formatted_questions)
               (jsonify_keys categories_dict)
               EmptyString).

(** [DELETE /questions/<int:question_id>] *)
Definition delete_question (question_id : Z) : action body :=
  question ← query_question_get question_id;
  match question with
  | None => abort 422%Z
  | Some question =>
      _ ← delete question;
      mret (MessageBody true "Question successfully deleted")
  end.

(** One operand [data[key] is None] of the guard of [create_question]: the
    [or] chain reads the keys from left to right and stops at the first
    [None], where the view aborts. *)
Definition not_none {A} (key : string) (f : field A) : action A :=
  v ← getitem key f;
  match v with
  | None => abort 422%Z
  | Some a => mret a
  end.

(** [POST /questions] *)
Definition create_question (data : question_data) : action body :=
  question ← not_none "question" (data_question data);
  answer ← not_none "answer" (data_answer data);
  difficulty ← not_none "difficulty" (data_difficulty data);
  category ← not_none "category" (data_category data);
  _ ← insert question answer difficulty category;
  mret (MessageBody true "Question successfully created").

(** [POST /questions/search] *)
Definition search_questions (data : search_data) : action body :=
  search_term ← getitem "searchTerm" (data_searchTerm data);
  let pattern := "%" +:+ Py.str_opt search_term +:+ "%" in
  questions ← query_questions_filter
                (λ q, Sql.ilike (Question.question q) pattern);
  let formatted_questions := format <$> questions in
  if decide (length formatted_questions = 0) then abort 404%Z
  else mret (MatchesBody formatted_questions (length formatted_questions) None).

(** [GET /categories/<int:category_id>/questions] *)
Definition get_questions_by_category (category_id : Z) : action body :=
  questions ← query_questions_filter (λ q, Question.category q = category_id);
  current_category ← query_category_get category_id;
  let formatted_questions := format <$> questions in
  if decide (length formatted_questions = 0) then abort 404%Z
  else
    match current_category with
    | None => raise AttributeError
    | Some current_category =>
        mret (MatchesBody formatted_questions (length formatted_questions)
                (Some (Category.type current_category)))
    end.

(** [random.choice(seq)], which is [seq[randbelow(len(seq))]]; [randbelow]
    stands for the draw of the process-wide generator. *)
Definition random_choice {A} (randbelow : nat → nat) (seq : list A) : action A :=
  match seq !! randbelow (length seq) with
  | Some x => mret x
  | None => raise IndexError
  end.

(** [POST /quizzes]. [x not in None] is a type error, met as soon as the
    comprehension tests its first question. *)
Definition get_quiz_question (randbelow : nat → nat) (data : quiz_data)
  : action body :=
  previous_questions ← getitem "previous_questions" (data_previous_questions data);
  quiz_category ← getitem "quiz_category" (data_quiz_category data);
  id ← match quiz_category with
       | None => raise TypeError
       | Some quiz_category => getitem "id" quiz_category
       end;
  questions ← (if decide (id = Some 0%Z) then query_questions
               else query_questions_filter
                      (λ q, Some (Question.category q) = id));
  let formatted_questions := format <$> questions in
  filtered_questions ←
    match previous_questions with
    | Some previous_questions =>
        mret (filter (λ question, QuestionDict.id question ∉ previous_questions)
                formatted_questions)
    | None =>
        match formatted_questions with
        | [] => mret []
        | _ :: _ => raise TypeError
        end
    end;
  random_question ←
    (if decide (length filtered_questions = 0) then mret None
     else question ← random_choice randbelow filtered_questions;
          mret (Some question));
  match random_question with
  | None => abort 404%Z
  | Some random_question => mret (QuizBody random_question)
  end.

(** ** Routing *)

Inductive request :=
| GET_categories
| GET_questions (page : option Z)
| DELETE_questions (question_id : Z)
| POST_questions (data : question_data)
| POST_questions_search (data : search_data)
| GET_categories_questions (category_id : Z)
| POST_quizzes (randbelow : nat → nat) (data : quiz_data).

Definition view_of (r : request) : action body :=
  match r with
  | GET_categories => get_categories
  | GET_questions page => get_questions page
  | DELETE_questions question_id => delete_question question_id
  | POST_questions data => create_question data
  | POST_questions_search data => search_questions data
  | GET_categories_questions category_id => get_questions_by_category category_id
  | POST_quizzes randbelow data => get_quiz_question randbelow data
  end.

Definition handle (r : request) (s : db) : response * db :=
  full_dispatch_request (view_of r) s.

(** The state after a sequence of requests. *)
Definition run (rs : list request) (s : db) : db :=
  foldl (λ s r, (handle r s).2) s rs.

(** The questions of a response body, if it lists any. *)
Definition listed (b : body) : list QuestionDict.t :=
  match b with
  | QuestionsBody questions _ _ _ => questions
  | MatchesBody questions _ _ => questions
  | _ => []
  end.

(** ** Example data *)

Definition seeded_categories : list Category.t :=
  [ Category.mk 1 "Science"; Category.mk 2 "Art"; Category.mk 3 "Geography";
    Category.mk 4 "History"; Category.mk 5 "Entertainment";
    Category.mk 6 "Sports" ].

Definition sample_question (i : Z) : Question.t :=
  Question.mk i ("Question " +:+ pretty i) ("Answer " +:+ pretty i) 1
    (i `mod` 6 + 1).

Definition sample_questions (n : nat) : list Question.t :=
  (λ i, sample_question (Z.of_nat i + 1)) <$> seq 0 n.

Definition sample_db (n : nat) : db :=
  mkdb (sample_questions n) seeded_categories (Z.of_nat n + 1).

(** ** Vocabulary of the properties *)

(** An action is read-only when it hands the state on as it found it. *)
Definition read_only {A} (m : action A) : Prop := ∀ s, (m s).2 = s.

(** The four responses the error handlers write. *)
Definition fixed_envelopes : list response :=
  [ (MessageBody false "Bad request", 400%Z);
    (MessageBody false "Not found", 404%Z);
    (MessageBody false "Unprocessable entity", 422%Z);
    (MessageBody false "Internal server error", 500%Z) ].

(** An action is tame when it aborts with 404 or 422 only, and what it
    returns satisfies [P]. *)
Definition tame {A} (P : A → Prop) (m : action A) : Prop :=
  ∀ s,
    match (m s).1 with
    | Ret a => P a
    | Abort code => code = 404%Z ∨ code = 422%Z
    | Raise _ => True
    end.

(** The questions [get_quiz_question] fetches for category selector [c]. *)
Definition quiz_candidates (c : Z) (s : db) : list Question.t :=
  if decide (c = 0%Z) then questions s
  else filter (λ q, Question.category q = c) (questions s).

(** Those of them that are left once the previous questions are gone. *)
Definition quiz_remaining (P : list Z) (c : Z) (s : db) : list QuestionDict.t :=
  filter (λ q, QuestionDict.id q ∉ P) (format <$> quiz_candidates c s).

(** Identifiers at or past the sequence are still to be given out. *)
Definition ids_below_sequence (s : db) : Prop :=
  Forall (λ x, (Question.id x < next_id s)%Z) (questions s).

(** Identifier [q] was given out and its question is gone. *)
Definition retired (q : Z) (s : db) : Prop :=
  (q < next_id s)%Z ∧ ids_below_sequence s ∧
  q ∉ Question.id <$> questions s.

(** No key missing and at least one of them [null]. *)
Definition some_null (data : question_data) : Prop :=
  data_question data ≠ Absent ∧ data_answer data ≠ Absent ∧
  data_difficulty data ≠ Absent ∧ data_category data ≠ Absent ∧
  (data_question data = Null ∨ data_answer data = Null ∨
   data_difficulty data = Null ∨ data_category data = Null).

(** [t] opens [s], letters compared without regard to case. *)
Fixpoint prefix_ci (t s : string) : bool :=
  match t with
  | EmptyString => true
  | String c t' =>
      match s with
      | EmptyString => false
      | String d s' => Sql.eq_ci c d && prefix_ci t' s'
      end
  end.

(** [t] is a substring of [s], letters compared without regard to case. *)
Fixpoint contains_ci (t s : string) : bool :=
  prefix_ci t s ||
  match s with
  | EmptyString => false
  | String _ s' => contains_ci t s'
  end.

(** A character that a LIKE pattern reads as itself. *)
Definition plain_char (c : ascii) : bool :=
  negb (Ascii.eqb c "%" || Ascii.eqb c "_" || Ascii.eqb c "\").

(** A term without [%], [_] and backslash. *)
Fixpoint plain (t : string) : bool :=
  match t with
  | EmptyString => true
  | String c t' => plain_char c && plain t'
  end.

(** Every question's category reference is the identifier of a stored
    category. *)
Definition referential_integrity (s : db) : Prop :=
  Forall (λ q, Question.category q ∈ Category.id <$> categories s)
    (questions s).

(** How a key shows in a payload. *)
Inductive presence :=
| Missing
| IsNull
| HasValue.

Global Instance presence_eq_dec : EqDecision presence.
Proof. solve_decision. Defined.

Definition presence_of {A} (f : field A) : presence :=
  match f with
  | Absent => Missing
  | Null => IsNull
  | Val _ => HasValue
  end.

(** The first key of a question payload, in the order the guard of
    [create_question] reads them, that carries no value. *)
Definition first_defect (data : question_data) : option presence :=
  head (filter (λ p, p ≠ HasValue)
          [ presence_of (data_question data); presence_of (data_answer data);
            presence_of (data_difficulty data);
            presence_of (data_category data) ]).

(** Two texts that are the same up to the case of their letters. *)
Fixpoint same_ci (a b : string) : bool :=
  match a, b with
  | EmptyString, EmptyString => true
  | String c a', String d b' => Sql.eq_ci c d && same_ci a' b'
  | _, _ => false
  end.

(** Question identifiers are unique and lie below the sequence. *)
Definition store_ok (s : db) : Prop :=
  NoDup (Question.id <$> questions s) ∧ ids_below_sequence s.

(** * Properties *)

(** ** Slices *)

Lemma adjust_index_nonneg (n i : Z) :
  (0 ≤ i)%Z → Py.adjust_index n i = Z.min i n.
Proof.
  intros Hi. unfold Py.adjust_index.
  rewrite bool_decide_eq_false_2 by lia. reflexivity.
Qed.

Lemma adjust_index_neg (n i : Z) :
  (i < 0)%Z → Py.adjust_index n i = Z.max 0 (i + n).
Proof.
  intros Hi. unfold Py.adjust_index.
  rewrite bool_decide_eq_true_2 by lia. reflexivity.
Qed.

(** With bounds that are not negative a slice is a window of [stop - start]
    places that opens at [start]. *)
Lemma slice_nonneg {A} (l : list A) (start stop : Z) :
  (0 ≤ start ≤ stop)%Z →
  Py.slice l start stop =
    take (Z.to_nat (stop - start)) (drop (Z.to_nat start) l).
Proof.
  intros [H0 Hle]. unfold Py.slice.
  rewrite !adjust_index_nonneg by lia.
  destruct (decide (start ≤ Z.of_nat (length l))%Z) as [Hin|Hout].
  - rewrite (Z.min_l start) by lia.
    destruct (decide (stop ≤ Z.of_nat (length l))%Z) as [Hs|Hs].
    + rewrite Z.min_l by lia. reflexivity.
    + rewrite Z.min_r by lia.
      rewrite !take_ge; [reflexivity| |]; rewrite length_drop; lia.
  - rewrite (Z.min_r start) by lia.
    rewrite Nat2Z.id.
    rewrite !(drop_ge l); [by rewrite !take_nil | lia | lia].
Qed.

(** With two negative bounds both are counted from the end. *)
Lemma slice_neg {A} (l : list A) (start stop : Z) :
  (start < 0)%Z → (stop < 0)%Z →
  Py.slice l start stop =
    drop (Z.to_nat (Z.of_nat (length l) + start))
      (take (Z.to_nat (Z.of_nat (length l) + stop)) l).
Proof.
  intros Hs He. unfold Py.slice.
  rewrite !adjust_index_neg by lia.
  set (n := Z.of_nat (length l)).
  rewrite take_drop_commute.
  destruct (decide (start ≤ stop)%Z) as [Hle|Hgt].
  - f_equal; [lia|]. f_equal. lia.
  - rewrite !drop_ge; [reflexivity| |]; rewrite length_take; lia.
Qed.

(** ** Listing questions by page *)

(** What [get_questions] answers, in terms of the slice it takes. *)
Lemma handle_get_questions (page : option Z) (s : db) :
  handle (GET_questions page) s =
    (let start := ((default 1%Z page - 1) * QUESTIONS_PER_PAGE)%Z in
     let window :=
       Py.slice (format <$> questions s) start (start + QUESTIONS_PER_PAGE) in
     match window with
     | [] => not_found 404
     | _ :: _ =>
         (QuestionsBody window (length (questions s))
            (jsonify_keys (categories_dict (categories s))) EmptyString, 200%Z)
     end, s).
Proof.
  unfold handle, full_dispatch_request, view_of, get_questions.
  unfold mbind, action_bind, query_questions, query_categories. cbn zeta.
  case_decide as Hlen.
  - apply length_zero_iff_nil in Hlen. rewrite Hlen. reflexivity.
  - destruct (Py.slice _ _ _) as [|x w] eqn:Hw; [done|].
    unfold mret, action_ret. by rewrite length_fmap.
Qed.

(** C1: for a page number [p >= 1] and [T] stored questions, [GET
    /questions?page=p] answers with the window of ten places that opens at
    [(p-1)*10] in the full list of formatted questions, which holds
    [min(10, max(0, T - 10*(p-1)))] of them, and with [totalQuestions = T];
    when the window is empty the answer is the 404 response. *)
Theorem get_questions_window (s : db) (p : Z) :
  (1 ≤ p)%Z →
  let T := length (questions s) in
  let window :=
    take 10 (drop (Z.to_nat ((p - 1) * 10)) (format <$> questions s)) in
  Z.of_nat (length window) = Z.min 10 (Z.max 0 (Z.of_nat T - 10 * (p - 1))) ∧
  (handle (GET_questions (Some p)) s).1 =
    match window with
    | [] => (MessageBody false "Not found", 404%Z)
    | _ :: _ =>
        (QuestionsBody window T
           (jsonify_keys (categories_dict (categories s))) EmptyString, 200%Z)
    end.
Proof.
  intros Hp T window. split.
  - subst window T. rewrite length_take, length_drop, length_fmap.
    rewrite Nat2Z.inj_min, Nat2Z.inj_sub_max, Z2Nat.id by lia. lia.
  - rewrite handle_get_questions. cbn [fst]. cbv zeta.
    change (default 1%Z (Some p)) with p. unfold QUESTIONS_PER_PAGE.
    rewrite slice_nonneg by lia.
    replace (Z.to_nat ((p - 1) * 10 + 10 - (p - 1) * 10)) with 10 by lia.
    reflexivity.
Qed.

Lemma get_questions_window_witness :
  (1 ≤ 2)%Z ∧
  (handle (GET_questions (Some 2%Z)) (sample_db 12)).1 =
    (QuestionsBody
       [format (sample_question 11); format (sample_question 12)] 12
       (jsonify_keys (categories_dict seeded_categories)) EmptyString, 200%Z).
Proof.
  split; [lia|].
  exact (proj2 (get_questions_window (sample_db 12) 2 ltac:(lia))).
Defined.

(** C9: with page [-1] and at least eleven stored questions, [GET
    /questions] answers 200 with a window that is not empty and is counted
    from the end of the list: the (up to) ten questions that come before the
    last ten. *)
Theorem get_questions_negative_page (s : db) :
  11 ≤ length (questions s) →
  let T := length (questions s) in
  let window := drop (T - 20) (take (T - 10) (format <$> questions s)) in
  (-1 < 1)%Z ∧ window ≠ [] ∧
  (handle (GET_questions (Some (-1)%Z)) s).1 =
    (QuestionsBody window T
       (jsonify_keys (categories_dict (categories s))) EmptyString, 200%Z).
Proof.
  intros HT T window.
  assert (Hw : Py.slice (format <$> questions s) (-20) (-10) = window).
  { rewrite slice_neg by lia. rewrite length_fmap. subst window T.
    f_equal; [lia|]. f_equal. lia. }
  assert (Hne : window ≠ []).
  { intros Hnil. apply (f_equal length) in Hnil. subst window T.
    rewrite length_drop, length_take, length_fmap in Hnil.
    simpl in Hnil. lia. }
  split; [lia|]. split; [exact Hne|].
  rewrite handle_get_questions. cbn [fst]. cbv zeta.
  change (default 1%Z (Some (-1)%Z)) with (-1)%Z. unfold QUESTIONS_PER_PAGE.
  change ((-1 - 1) * 10)%Z with (-20)%Z. change (-20 + 10)%Z with (-10)%Z.
  rewrite Hw. destruct window; [done|reflexivity].
Qed.

Lemma get_questions_negative_page_witness :
  11 ≤ length (questions (sample_db 11)) ∧
  (handle (GET_questions (Some (-1)%Z)) (sample_db 11)).1 =
    (QuestionsBody [format (sample_question 1)] 11
       (jsonify_keys (categories_dict seeded_categories)) EmptyString, 200%Z).
Proof.
  split; [simpl; lia|].
  exact (proj2 (proj2
           (get_questions_negative_page (sample_db 11) ltac:(simpl; lia)))).
Defined.

(** ** Views that only read *)

Lemma read_only_ret {A} (a : A) : read_only (mret a).
Proof. by intros s. Qed.

Lemma read_only_abort {A} (code : Z) : read_only (@abort A code).
Proof. by intros s. Qed.

Lemma read_only_raise {A} (e : exn) : read_only (@raise A e).
Proof. by intros s. Qed.

Lemma read_only_bind {A B} (m : action A) (k : A → action B) :
  read_only m → (∀ a, read_only (k a)) → read_only (m ≫= k).
Proof.
  intros Hm Hk s. unfold mbind, action_bind.
  specialize (Hm s). destruct (m s) as [[a|c|e] s']; simpl in *; subst s'.
  - apply Hk.
  - reflexivity.
  - reflexivity.
Qed.

Lemma read_only_query_questions : read_only query_questions.
Proof. by intros s. Qed.

Lemma read_only_query_categories : read_only query_categories.
Proof. by intros s. Qed.

Lemma read_only_query_questions_filter (P : Question.t → Prop)
    `{!∀ q, Decision (P q)} :
  read_only (query_questions_filter P).
Proof. by intros s. Qed.

Lemma read_only_query_category_get (i : Z) : read_only (query_category_get i).
Proof. by intros s. Qed.

Lemma read_only_getitem {A} (key : string) (f : field A) :
  read_only (getitem key f).
Proof. by destruct f; intros s. Qed.

Lemma read_only_random_choice {A} (randbelow : nat → nat) (seq : list A) :
  read_only (random_choice randbelow seq).
Proof. unfold random_choice. by destruct (_ !! _); intros s. Qed.

Create HintDb read_only.
#[local] Hint Resolve read_only_ret read_only_abort read_only_raise
  read_only_query_questions read_only_query_categories
  read_only_query_questions_filter read_only_query_category_get
  read_only_getitem read_only_random_choice : read_only.

Ltac read_only_step :=
  lazymatch goal with
  | |- read_only (_ ≫= _) => apply read_only_bind; [|intros ?]
  | |- read_only (if ?c then _ else _) => destruct c
  | |- read_only (match ?x with _ => _ end) => destruct x
  | |- _ => solve [auto with read_only]
  end.

Lemma read_only_get_categories : read_only get_categories.
Proof. unfold get_categories. repeat read_only_step. Qed.

Lemma read_only_get_questions page : read_only (get_questions page).
Proof. unfold get_questions. cbv zeta. repeat read_only_step. Qed.

Lemma read_only_search_questions data : read_only (search_questions data).
Proof. unfold search_questions. cbv zeta. repeat read_only_step. Qed.

Lemma read_only_get_questions_by_category category_id :
  read_only (get_questions_by_category category_id).
Proof. unfold get_questions_by_category. cbv zeta. repeat read_only_step. Qed.

Lemma read_only_get_quiz_question randbelow data :
  read_only (get_quiz_question randbelow data).
Proof. unfold get_quiz_question. cbv zeta. repeat read_only_step. Qed.

Lemma full_dispatch_read_only (view : action body) (s : db) :
  read_only view → (full_dispatch_request view s).2 = s.
Proof.
  intros Hv. unfold full_dispatch_request. specialize (Hv s).
  by destruct (view s) as [[b|c|e] s'].
Qed.

(** C10: the five reading routes leave both tables, and all of the stored
    state, as they were, whether they answer 200 or fail. *)
Theorem read_routes_keep_state :
  (∀ s, (handle GET_categories s).2 = s) ∧
  (∀ page s, (handle (GET_questions page) s).2 = s) ∧
  (∀ data s, (handle (POST_questions_search data) s).2 = s) ∧
  (∀ category_id s, (handle (GET_categories_questions category_id) s).2 = s) ∧
  (∀ randbelow data s, (handle (POST_quizzes randbelow data) s).2 = s).
Proof.
  repeat split; intros; apply full_dispatch_read_only; simpl.
  - apply read_only_get_categories.
  - apply read_only_get_questions.
  - apply read_only_search_questions.
  - apply read_only_get_questions_by_category.
  - apply read_only_get_quiz_question.
Qed.

(** ** The error envelope *)

Lemma tame_ret {A} (P : A → Prop) (a : A) : P a → tame P (mret a).
Proof. by intros Ha s. Qed.

Lemma tame_abort_404 {A} (P : A → Prop) : tame P (abort 404%Z).
Proof. intros s. by left. Qed.

Lemma tame_abort_422 {A} (P : A → Prop) : tame P (abort 422%Z).
Proof. intros s. by right. Qed.

Lemma tame_raise {A} (P : A → Prop) (e : exn) : tame P (raise e).
Proof. by intros s. Qed.

Lemma tame_bind {A B} (Q : B → Prop) (m : action A) (k : A → action B) :
  tame (λ _, True) m → (∀ a, tame Q (k a)) → tame Q (m ≫= k).
Proof.
  intros Hm Hk s. unfold mbind, action_bind.
  specialize (Hm s). destruct (m s) as [[a|c|e] s']; simpl in *.
  - apply Hk.
  - exact Hm.
  - exact I.
Qed.

Lemma tame_getitem {A} (key : string) (f : field A) :
  tame (λ _, True) (getitem key f).
Proof. by destruct f; intros s. Qed.

Lemma tame_not_none {A} (key : string) (f : field A) :
  tame (λ _, True) (not_none key f).
Proof. destruct f; intros s; simpl; auto. Qed.

Lemma tame_random_choice {A} (randbelow : nat → nat) (seq : list A) :
  tame (λ _, True) (random_choice randbelow seq).
Proof. unfold random_choice. by destruct (_ !! _); intros s. Qed.

Lemma tame_query {A} (f : db → A) : tame (λ _, True) (λ s, (Ret (f s), s)).
Proof. by intros s. Qed.

Create HintDb tame.
#[local] Hint Resolve tame_abort_404 tame_abort_422 tame_raise tame_getitem
  tame_not_none tame_random_choice : tame.
#[local] Hint Extern 1 (tame _ (mret _)) => apply tame_ret; done : tame.
#[local] Hint Extern 1 (tame _ query_questions) => apply tame_query : tame.
#[local] Hint Extern 1 (tame _ query_categories) => apply tame_query : tame.
#[local] Hint Extern 1 (tame _ (query_questions_filter _)) =>
  apply tame_query : tame.
#[local] Hint Extern 1 (tame _ (query_question_get _)) =>
  apply tame_query : tame.
#[local] Hint Extern 1 (tame _ (query_category_get _)) =>
  apply tame_query : tame.
#[local] Hint Extern 1 (tame _ (insert _ _ _ _)) => (by intros ?) : tame.
#[local] Hint Extern 1 (tame _ (delete _)) => (by intros ?) : tame.

Ltac tame_step :=
  lazymatch goal with
  | |- tame _ (_ ≫= _) => apply tame_bind; [|intros ?]
  | |- tame _ (if ?c then _ else _) => destruct c
  | |- tame _ (match ?x with _ => _ end) => destruct x
  | |- _ => solve [auto with tame]
  end.

Lemma tame_view_of (r : request) : tame (λ b, success b = true) (view_of r).
Proof.
  destruct r; simpl.
  - unfold get_categories. repeat tame_step.
  - unfold get_questions. cbv zeta. repeat tame_step.
  - unfold delete_question. repeat tame_step.
  - unfold create_question. repeat tame_step.
  - unfold search_questions. cbv zeta. repeat tame_step.
  - unfold get_questions_by_category. cbv zeta. repeat tame_step.
  - unfold get_quiz_question. cbv zeta. repeat tame_step.
Qed.

(** C7: whatever the request and the stored state, the response either has
    status 200 with [success] true, or is one of the four fixed envelopes
    {success: false, message: m} with status 400, 404, 422 or 500 and the
    message that goes with the status; a failure carries nothing else. *)
Theorem failure_is_fixed_envelope (r : request) (s : db) :
  ((handle r s).1.2 = 200%Z ∧ success (handle r s).1.1 = true) ∨
  (handle r s).1 ∈ fixed_envelopes.
Proof.
  pose proof (tame_view_of r s) as Hv.
  unfold handle, full_dispatch_request.
  destruct (view_of r s) as [[b|code|e] s']; simpl in *.
  - left. by split.
  - right. unfold fixed_envelopes.
    destruct Hv as [-> | ->]; cbv [handle_http_exception errorhandler];
      simpl; set_solver.
  - right. unfold fixed_envelopes.
    cbv [handle_http_exception errorhandler]; simpl; set_solver.
Qed.

(** ** The category mapping *)

Lemma str_int_inj : Inj (=) (=) Py.str_int.
Proof. unfold Py.str_int. apply _. Qed.

#[local] Existing Instance str_int_inj.

Lemma categories_dict_snoc (l : list Category.t) (c : Category.t) :
  categories_dict (l ++ [c]) =
    <[Category.id c := Category.type c]> (categories_dict l).
Proof. unfold categories_dict. by rewrite foldl_app. Qed.

Lemma categories_dict_nil_iff (l : list Category.t) :
  size (categories_dict l) = 0 ↔ l = [].
Proof.
  rewrite map_size_empty_iff. split.
  - destruct l as [|c l] using rev_ind; [done|].
    rewrite categories_dict_snoc. intros H.
    by apply insert_non_empty in H.
  - by intros ->.
Qed.

(** Every key of the dictionary is the identifier of a row, with the label
    of that row. *)
Lemma categories_dict_sound (l : list Category.t) (k : Z) (v : string) :
  categories_dict l !! k = Some v →
  ∃ c, c ∈ l ∧ Category.id c = k ∧ Category.type c = v.
Proof.
  induction l as [|c l IH] using rev_ind; [done|].
  rewrite categories_dict_snoc, lookup_insert.
  case_decide as Hk.
  - intros [= <-]. exists c. split; [set_solver|done].
  - intros (c' & Hin & Hid & Hty)%IH. exists c'. split; [set_solver|done].
Qed.

(** With identifiers that are unique, every row is in the dictionary. *)
Lemma categories_dict_complete (l : list Category.t) (c : Category.t) :
  NoDup (Category.id <$> l) → c ∈ l →
  categories_dict l !! Category.id c = Some (Category.type c).
Proof.
  induction l as [|d l IH] using rev_ind; [by intros _ ?%elem_of_nil|].
  rewrite fmap_app, categories_dict_snoc. simpl.
  intros [Hl [Hd _]]%NoDup_app Hin.
  apply elem_of_app in Hin as [Hin|Hin].
  - rewrite lookup_insert_ne; [by apply IH|].
    intros Heq. apply (Hd (Category.id c)); [|set_solver].
    apply list_elem_of_fmap. by exists c.
  - apply list_elem_of_singleton in Hin as ->. by rewrite lookup_insert_eq.
Qed.

Lemma handle_get_categories (s : db) :
  (handle GET_categories s).1 =
    match categories s with
    | [] => (MessageBody false "Not found", 404%Z)
    | _ :: _ =>
        (CategoriesBody (jsonify_keys (categories_dict (categories s))), 200%Z)
    end.
Proof.
  unfold handle, full_dispatch_request, view_of, get_categories.
  unfold mbind, action_bind, query_categories.
  case_decide as Hsz.
  - apply categories_dict_nil_iff in Hsz. by rewrite Hsz.
  - destruct (categories s) eqn:Hc; [|done].
    by destruct Hsz.
Qed.

(** C8: [GET /categories] answers 404 when no category is stored; otherwise,
    the identifiers being unique, its mapping has one key per stored
    category, the decimal text of the identifier, bound to the label, and no
    other key. For the six seeded categories the mapping is "1" to
    "Science", "2" to "Art", "3" to "Geography", "4" to "History", "5" to
    "Entertainment" and "6" to "Sports". *)
Theorem get_categories_mapping :
  (∀ s, categories s = [] →
        (handle GET_categories s).1 = (MessageBody false "Not found", 404%Z)) ∧
  (∀ s, categories s ≠ [] → NoDup (Category.id <$> categories s) →
        ∃ m : gmap string string,
          (handle GET_categories s).1 = (CategoriesBody m, 200%Z) ∧
          (∀ c, c ∈ categories s →
                m !! Py.str_int (Category.id c) = Some (Category.type c)) ∧
          (∀ k v, m !! k = Some v →
                  ∃ c, c ∈ categories s ∧ k = Py.str_int (Category.id c) ∧
                       v = Category.type c)) ∧
  (∀ qs n,
     (handle GET_categories (mkdb qs seeded_categories n)).1 =
       (CategoriesBody
          (<["1" := "Science"]> (<["2" := "Art"]> (<["3" := "Geography"]>
           (<["4" := "History"]> (<["5" := "Entertainment"]>
           (<["6" := "Sports"]> ∅)))))), 200%Z)).
Proof.
  split; [|split].
  - intros s Hnil. rewrite handle_get_categories. by rewrite Hnil.
  - intros s Hne Hnd.
    exists (jsonify_keys (categories_dict (categories s))). split; [|split].
    + rewrite handle_get_categories. by destruct (categories s).
    + intros c Hc. unfold jsonify_keys.
      rewrite (lookup_kmap Py.str_int). by apply categories_dict_complete.
    + intros k v. unfold jsonify_keys.
      rewrite (lookup_kmap_Some Py.str_int).
      intros (i & -> & (c & Hc & <- & <-)%categories_dict_sound).
      by exists c.
  - intros qs n. rewrite handle_get_categories. vm_compute. reflexivity.
Qed.

Lemma get_categories_mapping_witness :
  categories (sample_db 0) ≠ [] ∧
  NoDup (Category.id <$> categories (sample_db 0)) ∧
  ∃ m : gmap string string,
    (handle GET_categories (sample_db 0)).1 = (CategoriesBody m, 200%Z) ∧
    m !! "3" = Some "Geography".
Proof.
  assert (Hne : categories (sample_db 0) ≠ []) by done.
  assert (Hnd : NoDup (Category.id <$> categories (sample_db 0))).
  { apply (bool_decide_unpack _). vm_compute. exact I. }
  split; [exact Hne|]. split; [exact Hnd|].
  destruct (proj1 (proj2 get_categories_mapping) (sample_db 0) Hne Hnd)
    as (m & Hm & Hin & _).
  exists m. split; [exact Hm|].
  apply (Hin (Category.mk 3 "Geography")). set_solver.
Defined.

(** ** The quiz *)

Lemma bind_run_ret {A B} (m : action A) (k : A → action B) s a s' :
  m s = (Ret a, s') → (m ≫= k) s = k a s'.
Proof. intros Hm. unfold mbind, action_bind. by rewrite Hm. Qed.

Lemma handle_get_quiz_question randbelow (P : list Z) (c : Z) (s : db) :
  (handle (POST_quizzes randbelow (mk_quiz_data (Val P) (Val (Val c)))) s).1 =
    match quiz_remaining P c s with
    | [] => (MessageBody false "Not found", 404%Z)
    | _ :: _ =>
        match quiz_remaining P c s
              !! randbelow (length (quiz_remaining P c s)) with
        | Some q => (QuizBody q, 200%Z)
        | None => (MessageBody false "Internal server error", 500%Z)
        end
    end.
Proof.
  assert (Hq : ∀ s0,
    (if decide (Some c = Some 0%Z) then query_questions
     else query_questions_filter (λ q, Some (Question.category q) = Some c)) s0
    = (Ret (quiz_candidates c s0), s0)).
  { intros s0. unfold quiz_candidates.
    destruct (decide (Some c = Some 0%Z)) as [[= ->]|Hne].
    - by rewrite decide_True.
    - rewrite decide_False by congruence.
      unfold query_questions_filter. do 2 f_equal.
      apply list_filter_iff. intros q. split; congruence. }
  unfold handle, full_dispatch_request, view_of, get_quiz_question.
  do 3 (erewrite bind_run_ret by reflexivity).
  erewrite bind_run_ret by apply Hq.
  cbv zeta. erewrite bind_run_ret by reflexivity.
  fold (quiz_remaining P c s).
  destruct (quiz_remaining P c s) as [|q0 rest] eqn:Hrem.
  - by erewrite bind_run_ret by reflexivity.
  - rewrite decide_False by done.
    unfold random_choice.
    destruct (_ !! _) as [q|] eqn:Hq0.
    + by erewrite bind_run_ret by reflexivity.
    + reflexivity.
Qed.

Lemma quiz_remaining_spec (P : list Z) (c : Z) (s : db) (q : QuestionDict.t) :
  q ∈ quiz_remaining P c s ↔
  (QuestionDict.id q ∉ P) ∧
  ∃ x, x ∈ questions s ∧ q = format x ∧ (c ≠ 0%Z → Question.category x = c).
Proof.
  unfold quiz_remaining, quiz_candidates.
  rewrite list_elem_of_filter, list_elem_of_fmap.
  apply and_iff_compat_l. split.
  - intros (x & -> & Hx). exists x. case_decide as Hc.
    + done.
    + apply list_elem_of_filter in Hx as [Hcat Hx]. done.
  - intros (x & Hx & -> & Hcat). exists x. split; [done|].
    case_decide as Hc; [done|].
    apply list_elem_of_filter. auto.
Qed.

(** C3: for previous questions [P] and category selector [c], the candidates
    are all questions when [c = 0] and those of category [c] otherwise, less
    every question whose id is in [P]. When none is left the answer is the
    404 response. Otherwise the answer is 200 with the question at the place
    the generator draws, so a question that is left: its id is not in [P],
    it is a stored question and, when [c] is not 0, its category is [c]. *)
Theorem quiz_question_from_remaining randbelow (P : list Z) (c : Z) (s : db) :
  (∀ n, 0 < n → randbelow n < n) →
  let r := (handle (POST_quizzes randbelow
                      (mk_quiz_data (Val P) (Val (Val c)))) s).1 in
  let remaining :=
    filter (λ q, QuestionDict.id q ∉ P)
      (format <$> (if decide (c = 0%Z) then questions s
                   else filter (λ q, Question.category q = c) (questions s))) in
  match remaining with
  | [] => r = (MessageBody false "Not found", 404%Z)
  | _ :: _ =>
      ∃ q, r = (QuizBody q, 200%Z) ∧
           remaining !! randbelow (length remaining) = Some q ∧
           q ∈ remaining ∧
           (QuestionDict.id q ∉ P) ∧
           (∃ x, x ∈ questions s ∧ q = format x) ∧
           (c ≠ 0%Z → QuestionDict.category q = c)
  end.
Proof.
  intros Hrand r remaining.
  assert (Hrem : remaining = quiz_remaining P c s) by done.
  subst r. rewrite handle_get_quiz_question, <- Hrem.
  destruct remaining as [|q0 rest] eqn:Hr; [done|].
  destruct (lookup_lt_is_Some_2 (q0 :: rest) (randbelow (length (q0 :: rest))))
    as [q Hq].
  { apply Hrand. simpl. lia. }
  rewrite Hq. exists q.
  assert (Hin : q ∈ q0 :: rest) by (by eapply list_elem_of_lookup_2).
  pose proof Hin as Hspec. rewrite Hrem in Hspec.
  apply quiz_remaining_spec in Hspec as (HP & x & Hx & -> & Hcat).
  repeat split; try done.
  - by exists x.
Qed.

Lemma quiz_question_from_remaining_witness :
  (∀ n, 0 < n → (λ n, n - 1) n < n) ∧
  (handle (POST_quizzes (λ n, n - 1)
             (mk_quiz_data (Val [2%Z; 5%Z]) (Val (Val 3%Z))))
          (sample_db 12)).1 =
    (QuizBody (format (sample_question 8)), 200%Z).
Proof.
  assert (Hr : ∀ n, 0 < n → (λ n, n - 1) n < n) by (intros n; simpl; lia).
  split; [exact Hr|].
  destruct (quiz_question_from_remaining (λ n, n - 1) [2%Z; 5%Z] 3%Z
              (sample_db 12) Hr) as (q & -> & Hq & _).
  vm_compute in Hq. injection Hq as <-. reflexivity.
Defined.

(** ** Deleting a question *)

Lemma query_question_get_None (q : Z) (s : db) :
  (query_question_get q s).1 = Ret None ↔ q ∉ Question.id <$> questions s.
Proof.
  unfold query_question_get. simpl. split.
  - intros [= Hx]. apply head_None in Hx.
    intros (x & -> & Hin)%list_elem_of_fmap.
    assert (x ∈ filter (λ y, Question.id y = Question.id x) (questions s))
      as Hf by (by apply list_elem_of_filter).
    rewrite Hx in Hf. by apply elem_of_nil in Hf.
  - intros Hnot. f_equal. apply head_None.
    destruct (filter _ _) as [|x l] eqn:Hf; [done|].
    assert (x ∈ filter (λ y, Question.id y = q) (questions s)) as Hx
      by (rewrite Hf; left).
    apply list_elem_of_filter in Hx as [<- Hx].
    destruct Hnot. apply list_elem_of_fmap. by exists x.
Qed.

Lemma handle_delete_question (q : Z) (s : db) :
  handle (DELETE_questions q) s =
    match head (filter (λ x, Question.id x = q) (questions s)) with
    | None => ((MessageBody false "Unprocessable entity", 422%Z), s)
    | Some x =>
        ((MessageBody true "Question successfully deleted", 200%Z),
         mkdb (filter (λ y, Question.id y ≠ Question.id x) (questions s))
              (categories s) (next_id s))
    end.
Proof.
  unfold handle, full_dispatch_request, view_of, delete_question.
  erewrite bind_run_ret by reflexivity.
  destruct (head _) as [x|]; [|reflexivity].
  by erewrite bind_run_ret by reflexivity.
Qed.

Lemma retired_after_delete (q : Z) (s : db) :
  ids_below_sequence s → q ∈ Question.id <$> questions s →
  retired q (handle (DELETE_questions q) s).2.
Proof.
  intros Hs Hq. rewrite handle_delete_question.
  destruct (head _) as [x|] eqn:Hx.
  - apply head_Some_elem_of, list_elem_of_filter in Hx as [Hid Hx].
    unfold retired, ids_below_sequence in *. simpl. repeat split.
    + rewrite Forall_forall in Hs. rewrite <- Hid. by apply Hs.
    + rewrite Forall_forall in *. intros y [_ Hy]%list_elem_of_filter. auto.
    + intros (y & -> & [Hne _]%list_elem_of_filter)%list_elem_of_fmap.
      congruence.
  - apply head_None in Hx.
    apply list_elem_of_fmap in Hq as (y & -> & Hy).
    assert (y ∈ filter (λ x, Question.id x = Question.id y) (questions s))
      as Hf by (by apply list_elem_of_filter).
    rewrite Hx in Hf. by apply elem_of_nil in Hf.
Qed.

Lemma retired_insert (q : Z) (s : db) question answer difficulty category :
  retired q s → retired q (insert question answer difficulty category s).2.
Proof.
  intros (Hlt & Hall & Hnot). unfold retired, ids_below_sequence in *. simpl.
  repeat split.
  - lia.
  - apply Forall_app. split.
    + eapply Forall_impl; [exact Hall|]. simpl. intros; lia.
    + apply Forall_singleton. simpl. lia.
  - rewrite fmap_app. simpl. intros [Hin|Hin]%elem_of_app; [done|].
    apply list_elem_of_singleton in Hin. lia.
Qed.

Lemma retired_step (q : Z) (r : request) (s : db) :
  retired q s → retired q (handle r s).2.
Proof.
  intros Hs. destruct r as [|page|i|data|data|c|randbelow data].
  - unfold handle; rewrite full_dispatch_read_only;
      [exact Hs | apply read_only_get_categories].
  - unfold handle; rewrite full_dispatch_read_only;
      [exact Hs | apply read_only_get_questions].
  - rewrite handle_delete_question.
    destruct (head _) as [x|]; [|done].
    destruct Hs as (Hlt & Hall & Hnot).
    unfold retired, ids_below_sequence in *. simpl. repeat split.
    + done.
    + rewrite Forall_forall in *. intros y [_ Hy]%list_elem_of_filter. auto.
    + intros (y & -> & [_ Hy]%list_elem_of_filter)%list_elem_of_fmap.
      apply Hnot, list_elem_of_fmap. by exists y.
  - unfold handle, full_dispatch_request, view_of, create_question.
    destruct data as [[| |qu] [| |an] [| |di] [| |ca]]; try exact Hs.
    by apply (retired_insert q s qu an di ca).
  - unfold handle; rewrite full_dispatch_read_only;
      [exact Hs | apply read_only_search_questions].
  - unfold handle; rewrite full_dispatch_read_only;
      [exact Hs | apply read_only_get_questions_by_category].
  - unfold handle; rewrite full_dispatch_read_only;
      [exact Hs | apply read_only_get_quiz_question].
Qed.

Lemma retired_run (q : Z) (rs : list request) (s : db) :
  retired q s → retired q (run rs s).
Proof.
  revert s. induction rs as [|r rs IH]; intros s Hs; [done|].
  apply IH, retired_step, Hs.
Qed.

Lemma slice_subseteq {A} (l : list A) (start stop : Z) :
  Py.slice l start stop ⊆ l.
Proof.
  unfold Py.slice. etrans; [apply subseteq_take|apply subseteq_drop].
Qed.

Lemma handle_get_questions_by_category (c : Z) (s : db) :
  (handle (GET_categories_questions c) s).1 =
    match format <$> filter (λ q, Question.category q = c) (questions s) with
    | [] => (MessageBody false "Not found", 404%Z)
    | matches =>
        match head (filter (λ x, Category.id x = c) (categories s)) with
        | Some current_category =>
            (MatchesBody matches (length matches)
               (Some (Category.type current_category)), 200%Z)
        | None => (MessageBody false "Internal server error", 500%Z)
        end
    end.
Proof.
  unfold handle, full_dispatch_request, view_of, get_questions_by_category.
  do 2 (erewrite bind_run_ret by reflexivity). cbv zeta.
  destruct (format <$> _) as [|x l] eqn:Hf; [done|].
  rewrite decide_False by done.
  by destruct (head _).
Qed.

Lemma listed_get_questions page (s : db) :
  listed (handle (GET_questions page) s).1.1 ⊆ format <$> questions s.
Proof.
  rewrite handle_get_questions. cbv zeta. simpl fst.
  destruct (Py.slice _ _ _) as [|x w] eqn:Hw; [set_solver|].
  simpl. rewrite <- Hw. apply slice_subseteq.
Qed.

Lemma listed_get_questions_by_category (c : Z) (s : db) :
  listed (handle (GET_categories_questions c) s).1.1 ⊆ format <$> questions s.
Proof.
  rewrite handle_get_questions_by_category.
  destruct (format <$> _) as [|x l] eqn:Hf; [set_solver|].
  destruct (head _); [|set_solver]. simpl. rewrite <- Hf.
  intros y (z & -> & [_ Hz]%list_elem_of_filter)%list_elem_of_fmap.
  apply list_elem_of_fmap. by exists z.
Qed.

Lemma retired_not_listed (q : Z) (s : db) (l : list QuestionDict.t) :
  retired q s → l ⊆ format <$> questions s → q ∉ QuestionDict.id <$> l.
Proof.
  intros (_ & _ & Hnot) Hl (x & -> & Hx)%list_elem_of_fmap.
  apply Hl, list_elem_of_fmap in Hx as (y & -> & Hy).
  apply Hnot, list_elem_of_fmap. by exists y.
Qed.

(** C6: in a store whose question identifiers all lie below the sequence,
    [DELETE /questions/q] for a stored [q] answers 200 and, whatever requests
    follow, no later page of the list and no later listing by category
    holds a question of identifier [q]; for a [q] that is not stored it
    answers the 422 response, not the 404 one, and the state is as before. *)
Theorem delete_question_effect (q : Z) (s : db) :
  ids_below_sequence s →
  if decide (q ∈ Question.id <$> questions s) then
    (handle (DELETE_questions q) s).1 =
      (MessageBody true "Question successfully deleted", 200%Z) ∧
    ∀ rs : list request,
      let s' := run rs (handle (DELETE_questions q) s).2 in
      (∀ page,
         q ∉ QuestionDict.id <$> listed (handle (GET_questions page) s').1.1) ∧
      (∀ c,
         q ∉ QuestionDict.id <$>
               listed (handle (GET_categories_questions c) s').1.1)
  else
    handle (DELETE_questions q) s =
      ((MessageBody false "Unprocessable entity", 422%Z), s).
Proof.
  intros Hs. case_decide as Hq.
  - split.
    + rewrite handle_delete_question.
      destruct (head _) as [x|] eqn:Hx; [done|].
      apply (f_equal Ret), (query_question_get_None q s) in Hx. done.
    + intros rs s'.
      assert (Hret : retired q s')
        by (by apply retired_run, retired_after_delete).
      split.
      * intros page. eapply retired_not_listed; [exact Hret|].
        apply listed_get_questions.
      * intros c. eapply retired_not_listed; [exact Hret|].
        apply listed_get_questions_by_category.
  - rewrite handle_delete_question.
    apply query_question_get_None in Hq. injection Hq as ->. done.
Qed.

Lemma delete_question_effect_witness :
  ids_below_sequence (sample_db 3) ∧
  (handle (DELETE_questions 2) (sample_db 3)).1 =
    (MessageBody true "Question successfully deleted", 200%Z) ∧
  2%Z ∉ QuestionDict.id <$>
          listed (handle (GET_questions None)
                    (run [POST_questions
                            (mk_question_data (Val "q") (Val "a")
                               (Val 1%Z) (Val 2%Z))]
                       (handle (DELETE_questions 2) (sample_db 3)).2)).1.1.
Proof.
  assert (Hs : ids_below_sequence (sample_db 3)).
  { unfold ids_below_sequence. simpl. repeat constructor; simpl; lia. }
  split; [exact Hs|].
  pose proof (delete_question_effect 2 (sample_db 3) Hs) as H.
  rewrite decide_True in H
    by (apply (bool_decide_unpack _); vm_compute; exact I).
  destruct H as [H200 Hlater]. split; [exact H200|].
  exact (proj1 (Hlater [POST_questions
                          (mk_question_data (Val "q") (Val "a")
                             (Val 1%Z) (Val 2%Z))]) None).
Defined.

(** ** Creating a question *)

Lemma handle_create_question_values (s : db) question answer difficulty category :
  handle (POST_questions
            (mk_question_data (Val question) (Val answer) (Val difficulty)
               (Val category))) s =
    ((MessageBody true "Question successfully created", 200%Z),
     mkdb (questions s ++
             [Question.mk (next_id s) question answer difficulty category])
          (categories s) (next_id s + 1)).
Proof. reflexivity. Qed.

(** With the four keys present and one of them [null] the request is
    refused with 422 and nothing is stored. *)
Lemma create_question_null (data : question_data) (s : db) :
  some_null data →
  handle (POST_questions data) s =
    ((MessageBody false "Unprocessable entity", 422%Z), s).
Proof.
  destruct data as [[| |qu] [| |an] [| |di] [| |ca]];
    intros (H1 & H2 & H3 & H4 & H5); simpl in *; try done.
  destruct H5 as [H5|[H5|[H5|H5]]]; discriminate H5.
Qed.

(** A request that is not answered 200 stores nothing. *)
Lemma create_question_failure_keeps_state (data : question_data) (s : db) :
  (handle (POST_questions data) s).1.2 ≠ 200%Z →
  (handle (POST_questions data) s).2 = s.
Proof.
  destruct data as [[| |qu] [| |an] [| |di] [| |ca]]; try done.
Qed.

(** C2, at a payload that lacks the [category] key and has values under the
    other three: the answer is the 500 response, which is not the 422 one,
    and nothing is stored. *)
Theorem create_question_absent_key (s : db) (question answer : string)
    (difficulty : Z) :
  let r := handle (POST_questions
                     (mk_question_data (Val question) (Val answer)
                        (Val difficulty) Absent)) s in
  r = ((MessageBody false "Internal server error", 500%Z), s) ∧
  r.1 ≠ (MessageBody false "Unprocessable entity", 422%Z) ∧
  length (questions r.2) = length (questions s).
Proof. by repeat split. Qed.

(** ** Searching *)

Lemma like_percent (p s : string) :
  Sql.like (String "%" p) s =
    Sql.like p s ||
    match s with
    | EmptyString => false
    | String _ s' => Sql.like (String "%" p) s'
    end.
Proof. by destruct s. Qed.

Lemma like_plain_char (c : ascii) (p s : string) :
  plain_char c = true →
  Sql.like (String c p) s =
    match s with
    | EmptyString => false
    | String d s' => Sql.eq_ci c d && Sql.like p s'
    end.
Proof.
  destruct c as [[] [] [] [] [] [] [] []]; intros Hc;
    first [discriminate Hc | reflexivity].
Qed.

Lemma like_percent_only (s : string) : Sql.like "%" s = true.
Proof.
  induction s as [|d s IH]; [done|].
  rewrite like_percent, IH. by rewrite orb_true_r.
Qed.

Lemma like_plain_prefix (t s : string) :
  plain t = true → Sql.like (t +:+ "%") s = prefix_ci t s.
Proof.
  revert s. induction t as [|c t IH]; intros s Ht.
  - apply like_percent_only.
  - simpl in Ht. apply andb_prop in Ht as [Hc Ht].
    change (String c t +:+ "%") with (String c (t +:+ "%")).
    rewrite like_plain_char by done.
    destruct s as [|d s]; [done|]. simpl. by rewrite IH.
Qed.

(** For a term without pattern characters, [ILIKE '%term%'] is the
    substring test. *)
Lemma ilike_plain_contains (t s : string) :
  plain t = true → Sql.ilike s ("%" +:+ t +:+ "%") = contains_ci t s.
Proof.
  intros Ht. unfold Sql.ilike.
  change ("%" +:+ t +:+ "%") with (String "%" (t +:+ "%")).
  induction s as [|d s IH].
  - rewrite like_percent, like_plain_prefix by done. reflexivity.
  - rewrite like_percent, like_plain_prefix by done.
    rewrite IH. reflexivity.
Qed.

Lemma handle_search_questions (term : option string) (s : db) :
  (handle (POST_questions_search
             (mk_search_data (from_option Val Null term))) s).1 =
    match format <$> filter
            (λ q, Sql.ilike (Question.question q)
                    ("%" +:+ Py.str_opt term +:+ "%"))
            (questions s) with
    | [] => (MessageBody false "Not found", 404%Z)
    | matches => (MatchesBody matches (length matches) None, 200%Z)
    end.
Proof.
  unfold handle, full_dispatch_request, view_of, search_questions.
  erewrite bind_run_ret by (by destruct term).
  cbv zeta. erewrite bind_run_ret by reflexivity.
  destruct (format <$> _) as [|x l] eqn:Hf; [done|].
  by rewrite decide_False.
Qed.

(** X12: for a term without pattern characters, the search answers with
    the stored questions whose text has the term as a substring, case aside,
    in stored order, their number, and a null current category; 404 when
    there is none. The answer text is not looked at. *)
Lemma search_plain_term (t : string) (s : db) :
  plain t = true →
  (handle (POST_questions_search (mk_search_data (Val t))) s).1 =
    match format <$> filter (λ q, contains_ci t (Question.question q))
                       (questions s) with
    | [] => (MessageBody false "Not found", 404%Z)
    | matches => (MatchesBody matches (length matches) None, 200%Z)
    end.
Proof.
  intros Ht. rewrite (handle_search_questions (Some t)). simpl Py.str_opt.
  erewrite (list_filter_iff _ (λ q, contains_ci t (Question.question q)));
    [reflexivity|].
  intros q. by rewrite ilike_plain_contains.
Qed.

(** C4, at the term ["_"] and one stored question ["abc"]: the search
    answers 200 with that question, though ["_"] is not a substring of its
    text. *)
Theorem search_underscore_matches :
  let s := mkdb [Question.mk 1 "abc" "xyz" 1 1] [] 2 in
  (handle (POST_questions_search (mk_search_data (Val "_"))) s).1 =
    (MatchesBody [QuestionDict.mk 1 "abc" "xyz" 1 1] 1 None, 200%Z) ∧
  contains_ci "_" "abc" = false.
Proof. split; reflexivity. Qed.

(** ** Questions of a category *)

Lemma query_category_get_None (c : Z) (s : db) :
  head (filter (λ x, Category.id x = c) (categories s)) = None ↔
  c ∉ Category.id <$> categories s.
Proof.
  rewrite head_None. split.
  - intros Hnil (x & -> & Hx)%list_elem_of_fmap.
    assert (x ∈ filter (λ y, Category.id y = Category.id x) (categories s))
      as Hf by (by apply list_elem_of_filter).
    rewrite Hnil in Hf. by apply elem_of_nil in Hf.
  - intros Hnot. destruct (filter _ _) as [|x l] eqn:Hf; [done|].
    assert (x ∈ filter (λ y, Category.id y = c) (categories s)) as Hx
      by (rewrite Hf; left).
    apply list_elem_of_filter in Hx as [<- Hx].
    destruct Hnot. apply list_elem_of_fmap. by exists x.
Qed.

(** X15: where every category reference resolves, the listing by category
    is the questions of that category with their number and the label of
    the category, and 404 both for an identifier that resolves to no
    category and for a category without questions. *)
Lemma get_questions_by_category_integrity (c : Z) (s : db) :
  referential_integrity s →
  let matches :=
    format <$> filter (λ q, Question.category q = c) (questions s) in
  match matches with
  | [] => (handle (GET_categories_questions c) s).1 =
            (MessageBody false "Not found", 404%Z)
  | _ :: _ =>
      ∃ current_category,
        current_category ∈ categories s ∧
        Category.id current_category = c ∧
        (handle (GET_categories_questions c) s).1 =
          (MatchesBody matches (length matches)
             (Some (Category.type current_category)), 200%Z)
  end ∧
  (c ∉ Category.id <$> categories s → matches = []).
Proof.
  intros Hri matches.
  assert (Hdangling : c ∉ Category.id <$> categories s → matches = []).
  { intros Hc. subst matches.
    destruct (filter _ (questions s)) as [|x l] eqn:Hf; [done|].
    assert (x ∈ filter (λ q, Question.category q = c) (questions s)) as Hx
      by (rewrite Hf; left).
    apply list_elem_of_filter in Hx as [<- Hx].
    unfold referential_integrity in Hri. rewrite Forall_forall in Hri.
    destruct Hc. by apply Hri. }
  split; [|exact Hdangling].
  rewrite handle_get_questions_by_category. fold matches.
  destruct matches as [|x l] eqn:Hm; [done|].
  destruct (head _) as [cat|] eqn:Hcat.
  - apply head_Some_elem_of, list_elem_of_filter in Hcat as [Hid Hin].
    by exists cat.
  - apply query_category_get_None in Hcat. by apply Hdangling in Hcat.
Qed.

(** C5, at category 100 after a question of category 100 was created in a
    store that has the six seeded categories only: the identifier resolves
    to no category, and the listing answers the 500 response, not the 404
    one. *)
Theorem get_questions_by_category_dangling :
  let s0 := mkdb [] seeded_categories 1 in
  let created :=
    handle (POST_questions
              (mk_question_data (Val "q") (Val "a") (Val 1%Z) (Val 100%Z)))
      s0 in
  created.1 = (MessageBody true "Question successfully created", 200%Z) ∧
  (100%Z ∉ Category.id <$> categories created.2) ∧
  (handle (GET_categories_questions 100) created.2).1 =
    (MessageBody false "Internal server error", 500%Z).
Proof.
  split; [reflexivity|]. split; [|reflexivity].
  simpl. intros Hin. repeat (apply elem_of_cons in Hin as [Hin|Hin]; [done|]).
  by apply elem_of_nil in Hin.
Qed.

(** * Further properties of the views *)

(** ** Pages *)

Lemma adjust_index_bounds (n i : Z) :
  (0 ≤ n)%Z → (0 ≤ Py.adjust_index n i ≤ n)%Z.
Proof. intros Hn. unfold Py.adjust_index. case_bool_decide; lia. Qed.

Lemma length_slice {A} (l : list A) (start stop : Z) :
  Z.of_nat (length (Py.slice l start stop)) =
    Z.max 0 (Py.adjust_index (Z.of_nat (length l)) stop -
             Py.adjust_index (Z.of_nat (length l)) start).
Proof.
  unfold Py.slice. cbv zeta.
  pose proof (adjust_index_bounds (Z.of_nat (length l)) start ltac:(lia)).
  pose proof (adjust_index_bounds (Z.of_nat (length l)) stop ltac:(lia)).
  rewrite length_take, length_drop. lia.
Qed.




Lemma listed_page (s : db) (i : nat) :
  listed (handle (GET_questions (Some (Z.of_nat i + 1)%Z)) s).1.1 =
    take 10 (drop (10 * i) (format <$> questions s)).
Proof.
  rewrite handle_get_questions. cbv zeta. simpl fst.
  change (default 1%Z (Some (Z.of_nat i + 1)%Z)) with (Z.of_nat i + 1)%Z.
  unfold QUESTIONS_PER_PAGE. rewrite slice_nonneg by lia.
  replace (Z.to_nat ((Z.of_nat i + 1 - 1) * 10 + 10 -
                     (Z.of_nat i + 1 - 1) * 10)) with 10 by lia.
  replace (Z.to_nat ((Z.of_nat i + 1 - 1) * 10)) with (10 * i) by lia.
  by destruct (take 10 _).
Qed.

(** X2: the pages tile the list. The questions of pages 1 to [k], one page
    after the other, are the first [10*k] formatted questions in stored
    order: no question is left out and none comes twice. *)
Theorem pages_tile_the_list (s : db) (k : nat) :
  concat ((λ i, listed (handle (GET_questions (Some (Z.of_nat i + 1)%Z)) s).1.1)
            <$> seq 0 k) =
    take (10 * k) (format <$> questions s).
Proof.
  induction k as [|k IH]; [done|].
  rewrite seq_S, fmap_app, concat_app, IH. simpl.
  rewrite listed_page, app_nil_r.
  rewrite take_take_drop. f_equal. lia.
Qed.

(** X3: what a listing answered 200 looks like. A page of [GET /questions]
    holds between one and ten questions and its [totalQuestions] is the
    number of stored questions; a search and a listing by category hold at
    least one question and their [totalQuestions] is the number of
    questions they hold. *)
Theorem listing_shape (s : db) :
  (∀ page qs n cats cur,
     (handle (GET_questions page) s).1 = (QuestionsBody qs n cats cur, 200%Z) →
     0 < length qs ≤ 10 ∧ n = length (questions s) ∧ length qs ≤ n) ∧
  (∀ data b,
     (handle (POST_questions_search data) s).1 = (b, 200%Z) →
     ∃ qs, b = MatchesBody qs (length qs) None ∧ qs ≠ []) ∧
  (∀ c b,
     (handle (GET_categories_questions c) s).1 = (b, 200%Z) →
     ∃ qs label, b = MatchesBody qs (length qs) (Some label) ∧ qs ≠ []).
Proof.
  split; [|split].
  - intros page qs n cats cur. rewrite handle_get_questions. cbv zeta.
    simpl fst. unfold QUESTIONS_PER_PAGE.
    set (start := ((default 1%Z page - 1) * 10)%Z).
    pose proof (length_slice (format <$> questions s) start (start + 10))
      as Hlen.
    rewrite length_fmap in Hlen. unfold Py.adjust_index in Hlen.
    destruct (Py.slice _ _ _) as [|x w] eqn:Hw; [done|].
    intros [= <- <- _ _]. simpl length in *.
    repeat case_bool_decide; lia.
  - intros [[| |t]] b.
    + done.
    + rewrite (handle_search_questions None).
      destruct (format <$> _) as [|x l]; [done|].
      intros [= <-]. by exists (x :: l).
    + rewrite (handle_search_questions (Some t)).
      destruct (format <$> _) as [|x l]; [done|].
      intros [= <-]. by exists (x :: l).
  - intros c b. rewrite handle_get_questions_by_category.
    destruct (format <$> _) as [|x l]; [done|].
    destruct (head _) as [cat|]; [|done].
    intros [= <-]. by exists (x :: l), (Category.type cat).
Qed.

Lemma listing_shape_witness :
  ∃ qs, (handle (GET_categories_questions 3) (sample_db 12)).1 =
          (MatchesBody qs (length qs) (Some "Geography"), 200%Z) ∧ qs ≠ [].
Proof.
  destruct (proj2 (proj2 (listing_shape (sample_db 12))) 3%Z
              (handle (GET_categories_questions 3) (sample_db 12)).1.1
              eq_refl) as (qs & label & Hb & Hne).
  exists qs. split; [|exact Hne].
  vm_compute in Hb. injection Hb as <-. reflexivity.
Defined.

(** X4: a page answered 200 carries the empty string as current category
    and the category mapping that [GET /categories] answers with; when no
    category is stored, where [GET /categories] answers 404, the page is
    still answered and its mapping is empty. *)
Theorem page_carries_category_mapping (s : db) page qs n cats cur :
  (handle (GET_questions page) s).1 = (QuestionsBody qs n cats cur, 200%Z) →
  cur = EmptyString ∧
  match categories s with
  | [] => cats = ∅
  | _ :: _ => (handle GET_categories s).1 = (CategoriesBody cats, 200%Z)
  end.
Proof.
  rewrite handle_get_questions, handle_get_categories. cbv zeta. simpl fst.
  destruct (Py.slice _ _ _) as [|x w]; [done|].
  intros [= _ _ <- <-]. split; [done|].
  by destruct (categories s).
Qed.

Lemma page_carries_category_mapping_witness :
  (handle (GET_questions None) (mkdb (sample_questions 3) [] 4)).1 =
    (QuestionsBody (fmap (M:=list) format (sample_questions 3)) 3 ∅
       EmptyString, 200%Z) ∧
  (∅ : gmap string string) = ∅.
Proof.
  split; [reflexivity|].
  exact (proj2 (page_carries_category_mapping
                  (mkdb (sample_questions 3) [] 4) None
                  (fmap (M:=list) format (sample_questions 3)) 3 ∅
                  EmptyString eq_refl)).
Defined.

(** ** Creating, then listing *)


(** ** What a request does to the stored state *)

(** A request leaves the state alone, or is a delete answered 200 that
    takes one stored identifier out, or is a create answered 200 that puts
    one question in. *)
Lemma handle_state_cases (r : request) (s : db) :
  (handle r s).2 = s ∨
  (∃ x, x ∈ questions s ∧ r = DELETE_questions (Question.id x) ∧
        (handle r s).1.2 = 200%Z ∧
        (handle r s).2 =
          mkdb (filter (λ y, Question.id y ≠ Question.id x) (questions s))
               (categories s) (next_id s)) ∨
  (∃ question answer difficulty category,
     r = POST_questions (mk_question_data (Val question) (Val answer)
                           (Val difficulty) (Val category)) ∧
     (handle r s).1.2 = 200%Z ∧
     (handle r s).2 =
       mkdb (questions s ++
               [Question.mk (next_id s) question answer difficulty category])
            (categories s) (next_id s + 1)).
Proof.
  destruct r as [|page|i|data|data|c|randbelow data].
  - left. apply full_dispatch_read_only, read_only_get_categories.
  - left. apply full_dispatch_read_only, read_only_get_questions.
  - rewrite handle_delete_question.
    destruct (head _) as [x|] eqn:Hx; [|by left].
    apply head_Some_elem_of, list_elem_of_filter in Hx as [<- Hx].
    right. left. by exists x.
  - destruct data as [[| |qu] [| |an] [| |di] [| |ca]]; try (by left).
    right. right. by exists qu, an, di, ca.
  - left. apply full_dispatch_read_only, read_only_search_questions.
  - left. apply full_dispatch_read_only, read_only_get_questions_by_category.
  - left. apply full_dispatch_read_only, read_only_get_quiz_question.
Qed.

(** X6: a request that is not answered 200 changes nothing: the stored
    state after it is the state before it, for every route. *)
Theorem failure_keeps_state (r : request) (s : db) :
  (handle r s).1.2 ≠ 200%Z → (handle r s).2 = s.
Proof.
  intros Hfail.
  destruct (handle_state_cases r s)
    as [Hs|[(x & _ & _ & H200 & _)|(qu & an & di & ca & _ & H200 & _)]];
    done.
Qed.

Lemma failure_keeps_state_witness :
  (handle (DELETE_questions 7) (sample_db 3)).1.2 ≠ 200%Z ∧
  (handle (DELETE_questions 7) (sample_db 3)).2 = sample_db 3.
Proof.
  assert (H : (handle (DELETE_questions 7) (sample_db 3)).1.2 ≠ 200%Z)
    by (vm_compute; discriminate).
  split; [exact H|].
  exact (failure_keeps_state (DELETE_questions 7) (sample_db 3) H).
Defined.

(** X7: no sequence of requests touches the categories, and the identifier
    sequence never goes back. *)
Theorem categories_never_change (rs : list request) (s : db) :
  categories (run rs s) = categories s ∧ (next_id s ≤ next_id (run rs s))%Z.
Proof.
  revert s. induction rs as [|r rs IH]; intros s; [done|].
  change (run (r :: rs) s) with (run rs (handle r s).2).
  destruct (IH (handle r s).2) as [-> Hle].
  destruct (handle_state_cases r s)
    as [Hs|[(x & _ & _ & _ & Hs)|(qu & an & di & ca & _ & _ & Hs)]];
    rewrite Hs in *; simpl in *; split; (done || lia).
Qed.

Lemma NoDup_fmap_filter {A B} (f : A → B) (P : A → Prop)
    `{!∀ x, Decision (P x)} (l : list A) :
  NoDup (f <$> l) → NoDup (f <$> filter P l).
Proof.
  induction l as [|a l IH]; [done|].
  rewrite fmap_cons, NoDup_cons. intros [Hn Hnd].
  rewrite filter_cons. case_decide; [|auto].
  rewrite fmap_cons. apply NoDup_cons. split; [|auto].
  intros (y & Hy & [_ Hin]%list_elem_of_filter)%list_elem_of_fmap.
  apply Hn, list_elem_of_fmap. eauto.
Qed.

Lemma store_ok_step (r : request) (s : db) :
  store_ok s → store_ok (handle r s).2.
Proof.
  intros [Hnd Hlt].
  destruct (handle_state_cases r s)
    as [Hs|[(x & _ & _ & _ & Hs)|(qu & an & di & ca & _ & _ & Hs)]];
    rewrite Hs; [done| |].
  - split; simpl.
    + by apply NoDup_fmap_filter.
    + unfold ids_below_sequence in *. simpl. rewrite Forall_forall in *.
      intros y [_ Hy]%list_elem_of_filter. auto.
  - split; simpl.
    + rewrite fmap_app. apply NoDup_app. split; [done|]. split.
      * intros i (y & -> & Hy)%list_elem_of_fmap Hin. simpl in Hin.
        apply list_elem_of_singleton in Hin.
        unfold ids_below_sequence in Hlt. rewrite Forall_forall in Hlt.
        specialize (Hlt y Hy). lia.
      * simpl. apply NoDup_singleton.
    + unfold ids_below_sequence in *. simpl. apply Forall_app. split.
      * eapply Forall_impl; [exact Hlt|]. simpl. intros; lia.
      * apply Forall_singleton. simpl. lia.
Qed.

(** X8: a store whose question identifiers are unique and lie below the
    sequence stays so through every sequence of requests. *)
Theorem store_ok_kept (rs : list request) (s : db) :
  store_ok s → store_ok (run rs s).
Proof.
  revert s. induction rs as [|r rs IH]; intros s Hs; [done|].
  apply IH, store_ok_step, Hs.
Qed.

Lemma store_ok_kept_witness :
  store_ok (sample_db 3) ∧
  store_ok (run [DELETE_questions 2;
                 POST_questions (mk_question_data (Val "q") (Val "a")
                                   (Val 1%Z) (Val 2%Z))]
              (sample_db 3)).
Proof.
  assert (Hs : store_ok (sample_db 3)).
  { split.
    - apply (bool_decide_unpack _). vm_compute. exact I.
    - unfold ids_below_sequence. simpl. repeat constructor; simpl; lia. }
  split; [exact Hs|]. exact (store_ok_kept _ (sample_db 3) Hs).
Defined.

(** ** Deleting, again *)

Lemma filter_keeps_all {A} (P : A → Prop) `{!∀ x, Decision (P x)}
    (l : list A) :
  (∀ y, y ∈ l → P y) → filter P l = l.
Proof.
  induction l as [|a l IH]; intros Hall; [done|].
  rewrite filter_cons, decide_True by (apply Hall; left).
  f_equal. apply IH. intros y Hy. apply Hall. by right.
Qed.

Lemma filter_drops_all {A} (P : A → Prop) `{!∀ x, Decision (P x)}
    (l : list A) :
  (∀ y, y ∈ l → ¬ P y) → filter P l = [].
Proof.
  induction l as [|a l IH]; intros Hall; [done|].
  rewrite filter_cons, decide_False by (apply Hall; left).
  apply IH. intros y Hy. apply Hall. by right.
Qed.

Lemma length_filter_other_ids (x : Question.t) (l : list Question.t) :
  NoDup (Question.id <$> l) → x ∈ l →
  length (filter (λ y, Question.id y ≠ Question.id x) l) + 1 = length l.
Proof.
  induction l as [|a l IH]; [by intros _ ?%elem_of_nil|].
  rewrite fmap_cons, NoDup_cons. intros [Ha Hnd] Hx.
  rewrite filter_cons.
  apply elem_of_cons in Hx as [->|Hx].
  - rewrite decide_False by (intros H; by apply H).
    rewrite filter_keeps_all; [simpl; lia|].
    intros y Hy Heq. apply Ha. rewrite <- Heq.
    apply list_elem_of_fmap. by exists y.
  - rewrite decide_True.
    + simpl. rewrite <- (IH Hnd Hx). lia.
    + intros Heq. apply Ha. rewrite Heq.
      apply list_elem_of_fmap. by exists x.
Qed.

(** X9: deleting the same identifier a second time is refused. Whatever the
    first [DELETE /questions/q] answered, a second one right after it
    answers 422 and leaves the state as the first one left it. *)
Theorem delete_twice (q : Z) (s : db) :
  let s1 := (handle (DELETE_questions q) s).2 in
  handle (DELETE_questions q) s1 =
    ((MessageBody false "Unprocessable entity", 422%Z), s1).
Proof.
  intros s1.
  assert (Hgone : filter (λ x, Question.id x = q) (questions s1) = []).
  { subst s1. rewrite handle_delete_question.
    destruct (head _) as [x|] eqn:Hx.
    - apply head_Some_elem_of, list_elem_of_filter in Hx as [<- Hx]. simpl.
      apply filter_drops_all.
      intros y [Hne _]%list_elem_of_filter. done.
    - simpl. by apply head_None. }
  rewrite handle_delete_question, Hgone. reflexivity.
Qed.

(** X10: with unique identifiers, deleting a stored question takes exactly
    that one out: the answer is 200, one question fewer is stored, a
    question is stored afterwards exactly when it was stored before and
    is not the deleted one, and the categories are as before. *)
Theorem delete_removes_one (x : Question.t) (s : db) :
  NoDup (Question.id <$> questions s) → x ∈ questions s →
  let r := handle (DELETE_questions (Question.id x)) s in
  r.1 = (MessageBody true "Question successfully deleted", 200%Z) ∧
  length (questions r.2) + 1 = length (questions s) ∧
  (∀ y, y ∈ questions r.2 ↔ y ∈ questions s ∧ y ≠ x) ∧
  categories r.2 = categories s.
Proof.
  intros Hnd Hx r. subst r. rewrite handle_delete_question.
  destruct (head _) as [z|] eqn:Hz.
  - apply head_Some_elem_of, list_elem_of_filter in Hz as [Hid Hz].
    assert (z = x) as ->.
    { apply list_elem_of_lookup in Hz as [i Hi].
      apply list_elem_of_lookup in Hx as [j Hj].
      assert (i = j) as ->; [|congruence].
      eapply (NoDup_lookup _ _ _ (Question.id x) Hnd);
        rewrite list_lookup_fmap; [rewrite Hi|rewrite Hj]; simpl; congruence. }
    simpl. split; [done|]. split; [by apply length_filter_other_ids|].
    split; [|done].
    intros y. rewrite list_elem_of_filter. split.
    + intros [Hne Hy]. split; [done|]. congruence.
    + intros [Hy Hne]. split; [|done]. intros Heq. apply Hne.
      apply list_elem_of_lookup in Hy as [i Hi].
      apply list_elem_of_lookup in Hx as [j Hj].
      assert (i = j) as ->; [|congruence].
      eapply (NoDup_lookup _ _ _ (Question.id x) Hnd);
        rewrite list_lookup_fmap; [rewrite Hi|rewrite Hj]; simpl; congruence.
  - apply head_None in Hz.
    assert (x ∈ filter (λ y, Question.id y = Question.id x) (questions s))
      as Hf by (by apply list_elem_of_filter).
    rewrite Hz in Hf. by apply elem_of_nil in Hf.
Qed.

Lemma delete_removes_one_witness :
  NoDup (Question.id <$> questions (sample_db 3)) ∧
  sample_question 2 ∈ questions (sample_db 3) ∧
  length (questions (handle (DELETE_questions 2) (sample_db 3)).2) + 1 = 3.
Proof.
  assert (Hnd : NoDup (Question.id <$> questions (sample_db 3)))
    by (apply (bool_decide_unpack _); vm_compute; exact I).
  assert (Hin : sample_question 2 ∈ questions (sample_db 3))
    by (simpl; right; left).
  split; [exact Hnd|]. split; [exact Hin|].
  exact (proj1 (proj2 (delete_removes_one (sample_question 2) (sample_db 3)
                         Hnd Hin))).
Defined.

(** ** Creating a question, key by key *)

(** X11: the answer to [POST /questions] is decided by the first of the
    keys question, answer, difficulty, category that carries no value: if
    that key is null the answer is 422, if it is missing the answer is 500,
    in both cases with nothing stored; if all four carry values the answer
    is 200 and one more question is stored. *)
Theorem create_question_by_first_defect (data : question_data) (s : db) :
  match first_defect data with
  | None =>
      (handle (POST_questions data) s).1 =
        (MessageBody true "Question successfully created", 200%Z) ∧
      length (questions (handle (POST_questions data) s).2) =
        length (questions s) + 1
  | Some IsNull =>
      handle (POST_questions data) s =
        ((MessageBody false "Unprocessable entity", 422%Z), s)
  | Some Missing =>
      handle (POST_questions data) s =
        ((MessageBody false "Internal server error", 500%Z), s)
  | Some HasValue => False
  end.
Proof.
  destruct data as [[| |qu] [| |an] [| |di] [| |ca]]; try reflexivity.
  split; [reflexivity|]. simpl. by rewrite length_app.
Qed.

(** ** Searching, further *)

Lemma search_plain_term_witness :
  plain "question 2" = true ∧
  (handle (POST_questions_search (mk_search_data (Val "question 2")))
     (sample_db 3)).1 =
    (MatchesBody [format (sample_question 2)] 1 None, 200%Z).
Proof.
  split; [reflexivity|].
  exact (search_plain_term "question 2" (sample_db 3) eq_refl).
Defined.

Lemma like_two_percent (s : string) : Sql.like "%%" s = true.
Proof.
  change "%%"%string with (String "%" "%").
  rewrite like_percent, like_percent_only. reflexivity.
Qed.

Lemma like_three_percent (s : string) : Sql.like "%%%" s = true.
Proof.
  change "%%%"%string with (String "%" "%%").
  rewrite like_percent, like_two_percent. reflexivity.
Qed.

(** X13: a search for the empty term, and a search for the term ["%"],
    list every stored question, and answer 404 only when none is stored. *)
Theorem search_lists_everything (s : db) :
  let everything :=
    match format <$> questions s with
    | [] => (MessageBody false "Not found", 404%Z)
    | all => (MatchesBody all (length all) None, 200%Z)
    end in
  (handle (POST_questions_search (mk_search_data (Val EmptyString))) s).1 =
    everything ∧
  (handle (POST_questions_search (mk_search_data (Val "%"))) s).1 =
    everything.
Proof.
  intros everything. subst everything. split.
  - rewrite (handle_search_questions (Some EmptyString)).
    rewrite filter_keeps_all; [reflexivity|].
    intros q _. apply Is_true_true, like_two_percent.
  - rewrite (handle_search_questions (Some "%"%string)).
    rewrite filter_keeps_all; [reflexivity|].
    intros q _. apply Is_true_true, like_three_percent.
Qed.

Lemma lower_percent (c : ascii) : Sql.lower c = "%"%char → c = "%"%char.
Proof.
  destruct c as [[] [] [] [] [] [] [] []]; vm_compute; intros H;
    first [reflexivity | discriminate H].
Qed.

Lemma lower_underscore (c : ascii) : Sql.lower c = "_"%char → c = "_"%char.
Proof.
  destruct c as [[] [] [] [] [] [] [] []]; vm_compute; intros H;
    first [reflexivity | discriminate H].
Qed.

Lemma lower_backslash (c : ascii) : Sql.lower c = "\"%char → c = "\"%char.
Proof.
  destruct c as [[] [] [] [] [] [] [] []]; vm_compute; intros H;
    first [reflexivity | discriminate H].
Qed.

Lemma plain_char_false (c : ascii) :
  plain_char c = false → c = "%"%char ∨ c = "_"%char ∨ c = "\"%char.
Proof.
  unfold plain_char. rewrite negb_false_iff, !orb_true_iff, !Ascii.eqb_eq.
  tauto.
Qed.

Lemma eq_ci_eq (c d : ascii) :
  Sql.eq_ci c d = true ↔ Sql.lower c = Sql.lower d.
Proof. unfold Sql.eq_ci. apply bool_decide_eq_true. Qed.

(** A pattern character is only the same, case aside, as itself. *)
Lemma eq_ci_meta (c d : ascii) :
  Sql.eq_ci c d = true → plain_char c = false → d = c.
Proof.
  intros Hcd%eq_ci_eq [-> | [-> | ->]]%plain_char_false.
  - by apply lower_percent.
  - by apply lower_underscore.
  - by apply lower_backslash.
Qed.

Lemma eq_ci_sym (c d : ascii) : Sql.eq_ci c d = Sql.eq_ci d c.
Proof.
  unfold Sql.eq_ci. apply bool_decide_ext. split; intros H; by rewrite H.
Qed.

Lemma eq_ci_plain (c d : ascii) :
  Sql.eq_ci c d = true → plain_char c = true → plain_char d = true.
Proof.
  intros Hcd Hc. destruct (plain_char d) eqn:Hd; [done|].
  rewrite eq_ci_sym in Hcd. pose proof (eq_ci_meta d c Hcd Hd) as ->.
  congruence.
Qed.

Lemma eq_ci_subst (c d e : ascii) :
  Sql.eq_ci c d = true → Sql.eq_ci c e = Sql.eq_ci d e.
Proof.
  intros Hcd%eq_ci_eq. unfold Sql.eq_ci. by rewrite Hcd.
Qed.

Lemma like_same_ci_bounded (n : nat) (p p' : string) :
  String.length p ≤ n → same_ci p p' = true →
  ∀ s, Sql.like p s = Sql.like p' s.
Proof.
  revert p p'. induction n as [|n IH]; intros p p' Hn Hpp'.
  - destruct p, p'; try done. simpl in Hn. lia.
  - destruct p as [|c q], p' as [|c' q']; try done.
    simpl in Hn, Hpp'. apply andb_prop in Hpp' as [Hc Hq].
    destruct (plain_char c) eqn:Hplain.
    + intros s. rewrite !like_plain_char by eauto using eq_ci_plain.
      destruct s as [|d s]; [done|].
      rewrite (eq_ci_subst c c' d Hc). f_equal. apply IH; [lia|done].
    + pose proof (eq_ci_meta c c' Hc Hplain) as ->.
      apply plain_char_false in Hplain as [-> | [-> | ->]].
      * intros s. induction s as [|d s IHs].
        -- rewrite !like_percent. f_equal. apply IH; [lia|done].
        -- rewrite (like_percent q), (like_percent q'), IHs. f_equal.
           apply IH; [lia|done].
      * intros [|d s]; [done|]. simpl. apply IH; [lia|done].
      * destruct q as [|c2 q2], q' as [|c2' q2']; try done.
        simpl in Hn, Hq. apply andb_prop in Hq as [Hc2 Hq2].
        intros [|d s]; [done|]. simpl.
        rewrite (eq_ci_subst c2 c2' d Hc2). f_equal. apply IH; [lia|done].
Qed.

Lemma same_ci_refl (a : string) : same_ci a a = true.
Proof.
  induction a as [|c a IH]; [done|]. simpl. rewrite IH, andb_true_r.
  by apply eq_ci_eq.
Qed.

Lemma same_ci_app (a b u : string) :
  same_ci a b = true → same_ci (a +:+ u) (b +:+ u) = true.
Proof.
  revert b. induction a as [|c a IH]; intros [|d b] Hab; try done.
  - apply same_ci_refl.
  - simpl in *. apply andb_prop in Hab as [Hc Hab].
    by rewrite Hc, IH.
Qed.

(** X14: a search does not depend on the case of the letters of its term:
    two terms that are the same up to case get the same answer, whatever
    pattern characters they hold. *)
Theorem search_ignores_term_case (t t' : string) (s : db) :
  same_ci t t' = true →
  (handle (POST_questions_search (mk_search_data (Val t))) s).1 =
  (handle (POST_questions_search (mk_search_data (Val t'))) s).1.
Proof.
  intros Htt'.
  rewrite (handle_search_questions (Some t)),
    (handle_search_questions (Some t')). simpl Py.str_opt.
  erewrite (list_filter_iff _
              (λ q, Sql.ilike (Question.question q) ("%" +:+ t' +:+ "%")));
    [reflexivity|].
  intros q. unfold Sql.ilike.
  erewrite (like_same_ci_bounded _ ("%" +:+ t +:+ "%") ("%" +:+ t' +:+ "%"));
    [reflexivity|reflexivity|].
  change (Sql.eq_ci "%" "%" && same_ci (t +:+ "%") (t' +:+ "%") = true).
  by rewrite same_ci_app.
Qed.

Lemma search_ignores_term_case_witness :
  same_ci "QUESTION 2" "question 2" = true ∧
  (handle (POST_questions_search (mk_search_data (Val "QUESTION 2")))
     (sample_db 3)).1 =
    (MatchesBody [format (sample_question 2)] 1 None, 200%Z).
Proof.
  split; [reflexivity|].
  rewrite (search_ignores_term_case "QUESTION 2" "question 2" (sample_db 3)
             eq_refl).
  reflexivity.
Defined.

(** ** Listing by category, further *)

Lemma get_questions_by_category_integrity_witness :
  referential_integrity (sample_db 12) ∧
  (handle (GET_categories_questions 3) (sample_db 12)).1 =
    (MatchesBody [format (sample_question 2); format (sample_question 8)] 2
       (Some "Geography"), 200%Z) ∧
  (handle (GET_categories_questions 9) (sample_db 12)).1 =
    (MessageBody false "Not found", 404%Z).
Proof.
  assert (Hri : referential_integrity (sample_db 12)).
  { apply (bool_decide_unpack _). vm_compute. exact I. }
  split; [exact Hri|]. split.
  - destruct (proj1 (get_questions_by_category_integrity 3 (sample_db 12) Hri))
      as (cat & Hin & Hid & ->).
    vm_compute in Hin, Hid.
    repeat (apply elem_of_cons in Hin as [->|Hin]; [try discriminate Hid|]).
    + reflexivity.
    + by apply elem_of_nil in Hin.
  - exact (proj1 (get_questions_by_category_integrity 9 (sample_db 12) Hri)).
Defined.

(** ** The quiz, further *)

Lemma quiz_remaining_nil_iff (P : list Z) (c : Z) (s : db) :
  quiz_remaining P c s = [] ↔
  ∀ x, x ∈ quiz_candidates c s → Question.id x ∈ P.
Proof.
  unfold quiz_remaining. split.
  - intros Hnil x Hx.
    destruct (decide (Question.id x ∈ P)) as [|Hnot]; [done|].
    assert (format x ∈ filter (λ q, QuestionDict.id q ∉ P)
                         (format <$> quiz_candidates c s)) as Hin.
    { apply list_elem_of_filter. split; [done|].
      apply list_elem_of_fmap. by exists x. }
    rewrite Hnil in Hin. by apply elem_of_nil in Hin.
  - intros Hall. apply filter_drops_all.
    intros q (x & -> & Hx)%list_elem_of_fmap Hnot.
    apply Hnot. simpl. by apply Hall.
Qed.

(** X16: the quiz is exhausted exactly when every candidate was seen. For
    previous questions [P] and category selector [c], [POST /quizzes]
    answers 404 if and only if the id of every question of the candidate
    set (all questions for [c = 0], those of category [c] otherwise) is in
    [P]; so also when there is no candidate at all. *)
Theorem quiz_not_found_iff randbelow (P : list Z) (c : Z) (s : db) :
  (handle (POST_quizzes randbelow (mk_quiz_data (Val P) (Val (Val c)))) s).1 =
    (MessageBody false "Not found", 404%Z) ↔
  ∀ x, x ∈ quiz_candidates c s → Question.id x ∈ P.
Proof.
  rewrite <- quiz_remaining_nil_iff, handle_get_quiz_question.
  destruct (quiz_remaining P c s) as [|q0 rest]; [done|].
  by destruct (_ !! _).
Qed.

Lemma quiz_not_found_iff_witness :
  (handle (POST_quizzes (λ n, n - 1)
             (mk_quiz_data (Val [8%Z; 2%Z]) (Val (Val 3%Z))))
          (sample_db 12)).1 =
    (MessageBody false "Not found", 404%Z).
Proof.
  apply (proj2 (quiz_not_found_iff (λ n, n - 1) [8%Z; 2%Z] 3%Z (sample_db 12))).
  intros x Hx. vm_compute in Hx.
  repeat (apply elem_of_cons in Hx as [->|Hx]; [vm_compute; set_solver|]).
  by apply elem_of_nil in Hx.
Defined.

(** X17: a quiz payload that is not well formed. A missing
    [previous_questions] or [quiz_category] key, a null [quiz_category] and
    a [quiz_category] without [id] are answered 500. A null
    [previous_questions] is answered 404 when the category has no question
    and 500 when it has one, as the membership test only runs on a
    candidate. *)
Theorem quiz_malformed_payload randbelow (s : db) :
  (∀ quiz_category,
     (handle (POST_quizzes randbelow (mk_quiz_data Absent quiz_category)) s).1 =
       (MessageBody false "Internal server error", 500%Z)) ∧
  (∀ P quiz_category,
     quiz_category ∈ [Absent; Null; Val Absent] →
     (handle (POST_quizzes randbelow
                (mk_quiz_data (Val P) quiz_category)) s).1 =
       (MessageBody false "Internal server error", 500%Z)) ∧
  (∀ c,
     (handle (POST_quizzes randbelow
                (mk_quiz_data Null (Val (Val c)))) s).1 =
       match quiz_candidates c s with
       | [] => (MessageBody false "Not found", 404%Z)
       | _ :: _ => (MessageBody false "Internal server error", 500%Z)
       end).
Proof.
  split; [|split].
  - reflexivity.
  - intros P qc Hqc.
    repeat (apply elem_of_cons in Hqc as [->|Hqc]; [reflexivity|]).
    by apply elem_of_nil in Hqc.
  - intros c.
    assert (Hq : ∀ s0,
      (if decide (Some c = Some 0%Z) then query_questions
       else query_questions_filter
              (λ q, Some (Question.category q) = Some c)) s0
      = (Ret (quiz_candidates c s0), s0)).
    { intros s0. unfold quiz_candidates.
      destruct (decide (Some c = Some 0%Z)) as [[= ->]|Hne].
      - by rewrite decide_True.
      - rewrite decide_False by congruence.
        unfold query_questions_filter. do 2 f_equal.
        apply list_filter_iff. intros q. split; congruence. }
    unfold handle, full_dispatch_request, view_of, get_quiz_question.
    do 3 (erewrite bind_run_ret by reflexivity).
    erewrite bind_run_ret by apply Hq. cbv zeta.
    destruct (quiz_candidates c s) as [|x l]; [|reflexivity].
    by do 2 (erewrite bind_run_ret by reflexivity).
Qed.

Lemma quiz_malformed_payload_witness :
  (handle (POST_quizzes (λ n, n - 1) (mk_quiz_data (Val []) Null))
     (sample_db 3)).1 =
    (MessageBody false "Internal server error", 500%Z).
Proof.
  apply (proj1 (proj2 (quiz_malformed_payload (λ n, n - 1) (sample_db 3)))).
  right. left.
Defined.

(** X18: every question that is left can be drawn. For each question of
    the candidate set whose id is not in [P] there is a draw of the
    generator, within its range, for which [POST /quizzes] answers 200 with
    that question. *)
Theorem quiz_every_remaining_drawn (P : list Z) (c : Z) (s : db)
    (x : Question.t) :
  x ∈ quiz_candidates c s → Question.id x ∉ P →
  ∃ randbelow : nat → nat,
    (∀ n, 0 < n → randbelow n < n) ∧
    (handle (POST_quizzes randbelow (mk_quiz_data (Val P) (Val (Val c)))) s).1 =
      (QuizBody (format x), 200%Z).
Proof.
  intros Hx Hnot.
  assert (Hin : format x ∈ quiz_remaining P c s).
  { unfold quiz_remaining. apply list_elem_of_filter. split; [done|].
    apply list_elem_of_fmap. by exists x. }
  apply list_elem_of_lookup in Hin as [i Hi].
  pose proof (lookup_lt_Some _ _ _ Hi) as Hlt.
  exists (λ n, if decide (i < n) then i else 0). split.
  - intros n Hn. case_decide; lia.
  - rewrite handle_get_quiz_question.
    destruct (quiz_remaining P c s) as [|q0 rest] eqn:Hrem; [simpl in Hlt; lia|].
    rewrite decide_True by done. by rewrite Hi.
Qed.

Lemma quiz_every_remaining_drawn_witness :
  sample_question 8 ∈ quiz_candidates 3 (sample_db 12) ∧
  (Question.id (sample_question 8) ∉ [2%Z]) ∧
  ∃ randbelow : nat → nat,
    (∀ n, 0 < n → randbelow n < n) ∧
    (handle (POST_quizzes randbelow
               (mk_quiz_data (Val [2%Z]) (Val (Val 3%Z)))) (sample_db 12)).1 =
      (QuizBody (format (sample_question 8)), 200%Z).
Proof.
  assert (Hin : sample_question 8 ∈ quiz_candidates 3 (sample_db 12)).
  { apply list_elem_of_lookup. by exists 1. }
  assert (Hnot : Question.id (sample_question 8) ∉ [2%Z]).
  { apply (bool_decide_unpack _). vm_compute. exact I. }
  split; [exact Hin|]. split; [exact Hnot|].
  exact (quiz_every_remaining_drawn [2%Z] 3 (sample_db 12)
           (sample_question 8) Hin Hnot).
Defined.

(** ** Creating, then finding *)

Lemma prefix_ci_refl (t : string) : prefix_ci t t = true.
Proof.
  induction t as [|c t IH]; [done|]. simpl. rewrite IH, andb_true_r.
  by apply eq_ci_eq.
Qed.

Lemma contains_ci_refl (t : string) : contains_ci t t = true.
Proof.
  destruct t as [|c t]; [done|].
  change (prefix_ci (String c t) (String c t) || contains_ci (String c t) t
          = true).
  by rewrite prefix_ci_refl.
Qed.

(** X19: a created question is found by its own text. When the question
    text holds no [%], [_] or backslash, a search for that text right after
    the question was created is answered 200 and lists the new question. *)
Theorem created_question_is_found (s : db) (question answer : string)
    (difficulty category : Z) :
  plain question = true →
  let s' := (handle (POST_questions
                       (mk_question_data (Val question) (Val answer)
                          (Val difficulty) (Val category))) s).2 in
  let r := (handle (POST_questions_search
                      (mk_search_data (Val question))) s').1 in
  r.2 = 200%Z ∧
  QuestionDict.mk (next_id s) question answer difficulty category
    ∈ listed r.1.
Proof.
  intros Hplain s' r. subst r s'.
  rewrite handle_create_question_values. simpl snd.
  rewrite (handle_search_questions (Some question)). simpl Py.str_opt.
  set (new := Question.mk (next_id s) question answer difficulty category).
  assert (Hin : format new ∈
            format <$> filter
              (λ q, Sql.ilike (Question.question q) ("%" +:+ question +:+ "%"))
              (questions s ++ [new])).
  { apply list_elem_of_fmap. exists new. split; [done|].
    apply list_elem_of_filter. split.
    - rewrite ilike_plain_contains by done. simpl.
      apply Is_true_true, contains_ci_refl.
    - apply elem_of_app. right. left. }
  simpl questions.
  destruct (format <$> _) as [|x l] eqn:Hf.
  - by apply elem_of_nil in Hin.
  - split; [reflexivity|]. exact Hin.
Qed.

Lemma created_question_is_found_witness :
  plain "Who?" = true ∧
  QuestionDict.mk 4 "Who?" "Me" 1 2
    ∈ listed (handle (POST_questions_search (mk_search_data (Val "Who?")))
                (handle (POST_questions
                           (mk_question_data (Val "Who?") (Val "Me")
                              (Val 1%Z) (Val 2%Z))) (sample_db 3)).2).1.1.
Proof.
  split; [reflexivity|].
  exact (proj2 (created_question_is_found (sample_db 3) "Who?" "Me" 1 2
                  eq_refl)).
Defined.


